(** * Movie wishlist backend: the interest / deletion consistency core

    A shallow embedding of the Lambda handlers under
    [movie-download-wishlist-webapp/lambda/src] and of the record store
    they talk to, followed by the properties stated for them.

    Layout: Python values and strings; [shared/validation.py]; the stored
    items; [shared/response.py]; the record store (DynamoDB tables, their
    operations and their faults); [shared/dynamodb_client.py]; one module
    per handler file; the vocabulary and sample data of the properties;
    then the properties. *)

From Stdlib Require Import ZArith String Ascii.
From stdpp Require Import gmap strings list fin_maps sorting.

Local Open Scope Z_scope.

(** ** Python strings

    A Python [str] is a sequence of Unicode code points, and [len] counts
    code points; a code point is kept as its number. String literals of the
    source that end up in stored data are converted with [py]; messages and
    error codes, which are only ever literals, stay Rocq strings. *)

Definition codepoint := N.
Definition pystr := list codepoint.

Definition py (s : string) : pystr :=
  List.map N_of_ascii (list_ascii_of_string s).

(** The code points [str.strip()] removes when called without argument:
    those for which [str.isspace] holds. *)
Definition is_space (c : codepoint) : bool :=
  ((9 <=? c) && (c <=? 13))%N        (* \t \n \v \f \r *)
  || ((28 <=? c) && (c <=? 32))%N    (* FS GS RS US and the space *)
  || (c =? 133)%N                    (* U+0085 *)
  || (c =? 160)%N                    (* U+00A0 *)
  || (c =? 5760)%N                   (* U+1680 *)
  || ((8192 <=? c) && (c <=? 8202))%N  (* U+2000 .. U+200A *)
  || (c =? 8232)%N || (c =? 8233)%N  (* U+2028, U+2029 *)
  || (c =? 8239)%N                   (* U+202F *)
  || (c =? 8287)%N                   (* U+205F *)
  || (c =? 12288)%N.                 (* U+3000 *)

Fixpoint lstrip (s : pystr) : pystr :=
  match s with
  | [] => []
  | c :: r => if is_space c then lstrip r else s
  end.

Definition rstrip (s : pystr) : pystr := rev (lstrip (rev s)).

(** [s.strip()] *)
Definition strip (s : pystr) : pystr := rstrip (lstrip s).

(** [len(s)] *)
Definition len (s : pystr) : Z := Z.of_nat (length s).

(** [needle in hay] on the messages the store reports. *)
Fixpoint is_prefix (p s : list ascii) : bool :=
  match p, s with
  | [], _ => true
  | _ :: _, [] => false
  | a :: p', b :: s' => if Ascii.eqb a b then is_prefix p' s' else false
  end.

Fixpoint occurs_in (p s : list ascii) : bool :=
  is_prefix p s ||
  match s with
  | [] => false
  | _ :: s' => occurs_in p s'
  end.

Definition str_in (needle hay : string) : bool :=
  occurs_in (list_ascii_of_string needle) (list_ascii_of_string hay).

(** ** JSON values

    What [json.loads] yields for a request body. [JObj fields] is a dict
    given by its items, each key occurring once. A missing key read with
    [dict.get] is [None], which is also what JSON [null] loads to. *)

#[warnings="-register-all"]
Inductive json :=
| JNull
| JBool (b : bool)
| JNum (z : Z)
| JStr (s : pystr)
| JArr (items : list json)
| JObj (fields : list (pystr * json)).

Definition pystr_eqb (a b : pystr) : bool := bool_decide (a = b).

Fixpoint fields_get (k : pystr) (fields : list (pystr * json)) : json :=
  match fields with
  | [] => JNull
  | (k', v) :: r => if pystr_eqb k k' then v else fields_get k r
  end.

(** [body.get(k)]: [None] when [body] is not a dict, where Python raises
    [AttributeError]. *)
Definition dict_get (k : pystr) (body : json) : option json :=
  match body with
  | JObj fields => Some (fields_get k fields)
  | _ => None
  end.

(** ** shared/validation.py *)

Module validation.

(** [validate_movie_title(title)]: the pair [(is_valid, error_message)]. *)
Definition validate_movie_title (title : json) : bool * option string :=
  match title with
  | JNull => (false, Some "Title is required"%string)
  | JStr t =>
      match strip t with
      | [] => (false, Some "Title cannot be empty or whitespace only"%string)
      | _ :: _ =>
          if 500 <? len (strip t)
          then (false, Some "Title cannot exceed 500 characters"%string)
          else (true, None)
      end
  | _ => (false, Some "Title must be a string"%string)
  end.

Definition valid_statuses : list pystr := [py "wishlist"; py "downloaded"].

(** [validate_movie_status(status)]. *)
Definition validate_movie_status (status : json) : bool * option string :=
  match status with
  | JNull => (false, Some "Status is required"%string)
  | JStr st =>
      if bool_decide (st ∈ valid_statuses)
      then (true, None)
      else (false, Some "Status must be one of: wishlist, downloaded"%string)
  | _ => (false, Some "Status must be a string"%string)
  end.

(** [s.count('-')] *)
Definition count_hyphens (s : pystr) : Z :=
  Z.of_nat (length (filter (λ c, c = 45%N) s)).

(** [validate_uuid(uuid_str, field_name)]; [field_name] is ["ID"] when the
    caller gives none. *)
Definition validate_uuid (uuid_str : json) (field_name : string)
    : bool * option string :=
  match uuid_str with
  | JNull => (false, Some (field_name ++ " is required")%string)
  | JStr u =>
      match strip u with
      | [] => (false, Some (field_name ++ " cannot be empty")%string)
      | _ :: _ =>
          if negb (len u =? 36) || negb (count_hyphens u =? 4)
          then (false, Some (field_name ++ " must be a valid UUID")%string)
          else (true, None)
      end
  | _ => (false, Some (field_name ++ " must be a string")%string)
  end.

End validation.

(** ** Stored items

    A table maps a primary key to the remaining attributes of the item
    stored under it, so that an item always carries the key it is stored
    under. [createdBy] and [createdAt] are the attributes the handlers read
    with a default ([movie.get('createdBy', '')], [x.get('createdAt', 0)]). *)

Module Movie.
Record attrs := {
  title : pystr;
  status : pystr;
  createdBy : option pystr;
  createdAt : option Z;
  updatedAt : Z }.

Record t := { movieId : pystr; attributes : attrs }.

Global Instance attrs_eq_dec : EqDecision attrs.
Proof. solve_decision. Defined.
Global Instance eq_dec : EqDecision t.
Proof. solve_decision. Defined.
End Movie.

Module Interest.
Record t := { userId : pystr; movieId : pystr; createdAt : Z }.

Global Instance eq_dec : EqDecision t.
Proof. solve_decision. Defined.

(** The primary key of the Interests table: hash key [userId], range key
    [movieId]. *)
Definition key (i : t) : pystr * pystr := (userId i, movieId i).
End Interest.

(** A movie of the listing: the item with the [interestedUsers] attribute
    that [get_movies] adds to it. *)
Module EnrichedMovie.
Record t := { movie : Movie.t; interestedUsers : list pystr }.
End EnrichedMovie.

(** ** shared/response.py

    A response is kept as its status code and the body before [json.dumps];
    the headers are the same constants on every path and are left out. *)

Module response.

Inductive Body :=
| MovieBody (m : Movie.t)
| InterestBody (i : Interest.t)
| MoviesBody (l : list EnrichedMovie.t)
| ErrorBody (error : string) (errorType : option string)
| NoBody.

Record t := { statusCode : Z; body : Body }.

Definition success_response (status_code : Z) (b : Body) : t :=
  {| statusCode := status_code; body := b |}.

(** [error_type] is attached only when it is truthy. *)
Definition error_response (status_code : Z) (message : string)
    (error_type : option string) : t :=
  {| statusCode := status_code;
     body := ErrorBody message
               (match error_type with
                | Some EmptyString | None => None
                | Some ty => Some ty
                end) |}.

Definition no_content_response : t :=
  {| statusCode := 204; body := NoBody |}.

End response.

(** ** The record store

    Modelled from the spec: the DynamoDB service behind [boto3], which is
    not part of the repository. Section 4.1 gives its operations
    (get / put / delete / query / scan / conditional update / multi-item
    transaction) and section 4.4 the transaction: all deletes apply, or
    none do. Reads see every earlier write. Every operation may also be
    refused by the service (throttling, a rejected request such as a
    transaction over the item limit, a lost connection); a refused call
    writes nothing, and which call is refused, and how, is decided by the
    [fault] oracle of the invocation. *)

Module botocore.

(** [e.response] of a [ClientError]: [Error.Code], [Error.Message] (the
    empty string when absent) and the [Code] of each entry of
    [CancellationReasons] (the empty list when absent). *)
Record service_error := {
  Code : string;
  Message : string;
  CancellationReasons : list (option string) }.

(** What a store call can raise: a [ClientError], or any other exception
    of the client library. *)
Inductive exn :=
| ClientError (response : service_error)
| Exception (what : string).

End botocore.
Import botocore.

Module dynamodb.

Record Db := {
  movies_table : gmap pystr Movie.attrs;
  interests_table : gmap (pystr * pystr) Z }.

Inductive Condition := attribute_exists_movieId.

(** The entries of [TransactItems] the code builds: a [Delete] on the
    Movies table, with or without a condition, or on the Interests table. *)
Inductive TransactItem :=
| DeleteMovie (movieId : pystr) (ConditionExpression : option Condition)
| DeleteInterest (userId movieId : pystr).

(** The calls a handler makes to the store, in the order made. *)
Inductive Call :=
| GetItem (movieId : pystr)
| PutMovie (item : Movie.t)
| PutInterest (item : Interest.t)
| DeleteItem (userId movieId : pystr)
| Query (movieId : pystr)
| Scan
| UpdateItem (movieId status : pystr) (updatedAt : Z)
| TransactWriteItems (items : list TransactItem).

Record State := { db : Db; calls : list Call }.

(** The items of the tables, with their keys. *)
Definition movie_item (kv : pystr * Movie.attrs) : Movie.t :=
  {| Movie.movieId := kv.1; Movie.attributes := kv.2 |}.

Definition interest_item (kv : pystr * pystr * Z) : Interest.t :=
  {| Interest.userId := kv.1.1; Interest.movieId := kv.1.2;
     Interest.createdAt := kv.2 |}.

(** The partition of the [MovieInterestsIndex] for one movie. *)
Definition interests_of (movie_id : pystr)
    (t : gmap (pystr * pystr) Z) : gmap (pystr * pystr) Z :=
  filter (λ kv, kv.1.2 = movie_id) t.

(** The interests of every other movie. *)
Definition interests_not_of (movie_id : pystr)
    (t : gmap (pystr * pystr) Z) : gmap (pystr * pystr) Z :=
  filter (λ kv, kv.1.2 ≠ movie_id) t.

(** *** What each operation does to the tables when the service accepts it *)

Definition get_item (k : pystr) (d : Db) : option Movie.t :=
  (λ a, movie_item (k, a)) <$> movies_table d !! k.

Definition put_movie (item : Movie.t) (d : Db) : Db :=
  {| movies_table :=
       <[Movie.movieId item := Movie.attributes item]> (movies_table d);
     interests_table := interests_table d |}.

Definition put_interest (item : Interest.t) (d : Db) : Db :=
  {| movies_table := movies_table d;
     interests_table :=
       <[Interest.key item := Interest.createdAt item]> (interests_table d) |}.

Definition delete_interest (user_id movie_id : pystr) (d : Db) : Db :=
  {| movies_table := movies_table d;
     interests_table := delete (user_id, movie_id) (interests_table d) |}.

Definition delete_movie (movie_id : pystr) (d : Db) : Db :=
  {| movies_table := delete movie_id (movies_table d);
     interests_table := interests_table d |}.

Definition query_items (movie_id : pystr) (d : Db) : list Interest.t :=
  interest_item <$> map_to_list (interests_of movie_id (interests_table d)).

Definition scan_items (d : Db) : list Movie.t :=
  movie_item <$> map_to_list (movies_table d).

(** [SET #status = :status, updatedAt = :updatedAt] *)
Definition set_status (st : pystr) (t : Z) (a : Movie.attrs) : Movie.attrs :=
  {| Movie.title := Movie.title a;
     Movie.status := st;
     Movie.createdBy := Movie.createdBy a;
     Movie.createdAt := Movie.createdAt a;
     Movie.updatedAt := t |}.

Definition conditional_check_failed : service_error :=
  {| Code := "ConditionalCheckFailedException";
     Message := "The conditional request failed";
     CancellationReasons := [] |}.

(** *** The transaction *)

(** Does the condition of an item hold? An item without a condition
    always passes. *)
Definition item_passes (d : Db) (it : TransactItem) : bool :=
  match it with
  | DeleteMovie k (Some attribute_exists_movieId) =>
      bool_decide (is_Some (movies_table d !! k))
  | DeleteMovie _ None => true
  | DeleteInterest _ _ => true
  end.

Definition apply_item (d : Db) (it : TransactItem) : Db :=
  match it with
  | DeleteMovie k _ => delete_movie k d
  | DeleteInterest u k => delete_interest u k d
  end.

Definition reason_code (d : Db) (it : TransactItem) : string :=
  if item_passes d it then "None" else "ConditionalCheckFailed".

Fixpoint join (sep : string) (l : list string) : string :=
  match l with
  | [] => ""
  | [x] => x
  | x :: r => x ++ sep ++ join sep r
  end.

(** The error of a cancelled transaction: one reason per item, in the
    order of the items. *)
Definition transaction_canceled (reasons : list string) : service_error :=
  {| Code := "TransactionCanceledException";
     Message := "Transaction cancelled, please refer cancellation reasons for specific reasons ["
                ++ join ", " reasons ++ "]";
     CancellationReasons := Some <$> reasons |}.

(** All conditions are checked against the tables as they are; when one
    fails nothing is written, otherwise every item is applied. *)
Definition transact (items : list TransactItem) (d : Db)
    : service_error + Db :=
  if forallb (item_passes d) items
  then inr (foldl apply_item d items)
  else inl (transaction_canceled (reason_code d <$> items)).

End dynamodb.
Import dynamodb.

(** ** One invocation of a handler

    What an invocation reads from outside the tables: the clock
    ([int(time.time())], read at most once by every handler), the
    identifier drawn by [uuid.uuid4()], the identity directory, and the
    fault oracle: given the store calls made so far and the call being
    made, the exception the service answers with, if any. *)

Record Runtime := {
  now : Z;
  uuid4 : pystr;
  list_users : pystr -> option (list (option pystr));
  fault : list Call -> Call -> option exn }.

(** No store call is refused. *)
Definition store_available (rt : Runtime) : Prop :=
  ∀ tr c, fault rt tr c = None.

(** Handler code runs on the store state and either yields a value or
    raises. *)
Inductive outcome (A : Type) :=
| Ok (a : A)
| Raise (e : exn).
Arguments Ok {A} a.
Arguments Raise {A} e.

Definition Py (A : Type) : Type := State -> outcome A * State.

Definition ret {A} (a : A) : Py A := λ s, (Ok a, s).

Definition bind {A B} (m : Py A) (k : A -> Py B) : Py B :=
  λ s, match m s with
       | (Ok a, s') => k a s'
       | (Raise e, s') => (Raise e, s')
       end.

Definition raise {A} (e : exn) : Py A := λ s, (Raise e, s).

Notation "'let*' x ':=' m 'in' k" := (bind m (λ x, k))
  (at level 10, x name, m at level 100, k at level 200).

(** [try: x = m  except ClientError as e: return h(e)], then [k x]. *)
Definition try_except_ClientError {A} (m : Py A)
    (h : service_error -> response.t) (k : A -> Py response.t)
    : Py response.t :=
  λ s, match m s with
       | (Ok a, s') => k a s'
       | (Raise (ClientError e), s') => (Ok (h e), s')
       | (Raise e, s') => (Raise e, s')
       end.

(** The outermost [try: ... except Exception: return h] of a handler. *)
Definition try_except_Exception (m : Py response.t) (h : response.t)
    : State -> response.t * State :=
  λ s, match m s with
       | (Ok r, s') => (r, s')
       | (Raise _, s') => (h, s')
       end.

(** A store call: it is recorded, then refused by the service or carried
    out on the tables. *)
Definition store_call {A} (rt : Runtime) (c : Call)
    (run : Db -> (service_error + A) * Db) : Py A :=
  λ s,
    let s' d := {| db := d; calls := calls s ++ [c] |} in
    match fault rt (calls s) c with
    | Some e => (Raise e, s' (db s))
    | None =>
        match run (db s) with
        | (inr a, d) => (Ok a, s' d)
        | (inl e, d) => (Raise (ClientError e), s' d)
        end
    end.

(** ** shared/dynamodb_client.py

    The wrapper holds the two table handles; its methods below are the
    [boto3] calls the handlers make through it. The environment variables
    naming the tables are taken to be set. *)

Module dynamodb_client.

Definition handle_client_error (e : service_error) : Z * string :=
  let error_code := Code e in
  if String.eqb error_code "ConditionalCheckFailedException"
  then (409, "Resource conflict or condition not met"%string)
  else if String.eqb error_code "ResourceNotFoundException"
  then (404, "Resource not found"%string)
  else if String.eqb error_code "ProvisionedThroughputExceededException"
  then (503, "Service temporarily unavailable, please retry"%string)
  else if String.eqb error_code "ValidationException"
  then (400, "Invalid request parameters"%string)
  else if String.eqb error_code "TransactionCanceledException"
  then (500, "Transaction failed, please retry"%string)
  else (500, "Internal server error"%string).

Definition is_throttling_error (e : service_error) : bool :=
  String.eqb (Code e) "ProvisionedThroughputExceededException".

Section calls.
Variable rt : Runtime.

(** [movies_table.get_item(Key={'movieId': k})]: the item, or [None]
    when the response has no ['Item']. *)
Definition movies_get_item (k : pystr) : Py (option Movie.t) :=
  store_call rt (GetItem k) (λ d, (inr (get_item k d), d)).

(** [movies_table.put_item(Item=item)] *)
Definition movies_put_item (item : Movie.t) : Py unit :=
  store_call rt (PutMovie item) (λ d, (inr tt, put_movie item d)).

(** [interests_table.put_item(Item=item)] *)
Definition interests_put_item (item : Interest.t) : Py unit :=
  store_call rt (PutInterest item) (λ d, (inr tt, put_interest item d)).

(** [interests_table.delete_item(Key={'userId': u, 'movieId': k})] *)
Definition interests_delete_item (u k : pystr) : Py unit :=
  store_call rt (DeleteItem u k) (λ d, (inr tt, delete_interest u k d)).

(** [interests_table.query(IndexName='MovieInterestsIndex', ...)]
    followed by [.get('Items', [])]. *)
Definition interests_query (k : pystr) : Py (list Interest.t) :=
  store_call rt (Query k) (λ d, (inr (query_items k d), d)).

(** [movies_table.scan()] followed by [.get('Items', [])]. *)
Definition movies_scan : Py (list Movie.t) :=
  store_call rt Scan (λ d, (inr (scan_items d), d)).

(** [movies_table.update_item] with
    [ConditionExpression='attribute_exists(movieId)'] and
    [ReturnValues='ALL_NEW']; the value is [response['Attributes']]. *)
Definition movies_update_item (k st : pystr) (t : Z) : Py Movie.t :=
  store_call rt (UpdateItem k st t) (λ d,
    match movies_table d !! k with
    | Some a =>
        let a' := set_status st t a in
        (inr (movie_item (k, a')),
         put_movie (movie_item (k, a')) d)
    | None => (inl conditional_check_failed, d)
    end).

(** [dynamodb.meta.client.transact_write_items(TransactItems=items)] *)
Definition transact_write_items (items : list TransactItem) : Py unit :=
  store_call rt (TransactWriteItems items) (λ d,
    match transact items d with
    | inr d' => (inr tt, d')
    | inl e => (inl e, d)
    end).
End calls.

End dynamodb_client.

(** ** The API Gateway event

    [movieId]: the value of [event['pathParameters']['movieId']], [None]
    when the lookup raises [KeyError] or [TypeError]. [sub]: likewise for
    [event['requestContext']['authorizer']['claims']['sub']]. *)

Inductive RequestBody :=
| body_absent                       (* no 'body' key: the default '{}' *)
| body_none                         (* 'body' is None: json.loads raises TypeError *)
| body_text (loads : option json).  (* a str; None: JSONDecodeError *)

Record Event := {
  movieId : option pystr;
  sub : option pystr;
  body : RequestBody }.

(** [json.loads(event.get('body', '{}'))] *)
Definition json_loads_body (b : RequestBody) : exn + option json :=
  match b with
  | body_absent => inr (Some (JObj []))
  | body_none => inl (Exception "TypeError")
  | body_text l => inr l
  end.

Definition ValidationError : option string := Some "ValidationError"%string.
Definition AuthError : option string := Some "AuthError"%string.
Definition NotFoundError : option string := Some "NotFoundError"%string.
Definition DatabaseError : option string := Some "DatabaseError"%string.
Definition TransactionError : option string := Some "TransactionError"%string.
Definition ServerError : option string := Some "ServerError"%string.

(** [status_code, error_msg = db_client.handle_client_error(e)]
    [return error_response(status_code, error_msg, "DatabaseError")] *)
Definition database_error (e : service_error) : response.t :=
  let '(status_code, error_msg) := dynamodb_client.handle_client_error e in
  response.error_response status_code error_msg DatabaseError.

Definition internal_server_error : response.t :=
  response.error_response 500 "Internal server error" ServerError.

(** The message of a failed validation, always present on failure. *)
Definition message_of (m : option string) : string := default ""%string m.

(** ** delete_movie.py *)

Module delete_movie.
Import response(success_response, error_response, no_content_response,
                MovieBody, InterestBody, MoviesBody).
Import dynamodb_client.

Definition movie_not_found : response.t :=
  error_response 404 "Movie not found" NotFoundError.

Definition transaction_failed : response.t :=
  error_response 500 "Transaction failed" TransactionError.

(** The [except ClientError as e] branch around the transaction. *)
Definition on_transaction_error (e : service_error) : response.t :=
  let error_code := Code e in
  if String.eqb error_code "TransactionCanceledException" then
    match CancellationReasons e with
    | [] =>
        let error_message := Message e in
        if str_in "ConditionalCheckFailed" error_message
           || str_in "ConditionalCheckFailedException" error_message
        then movie_not_found
        else transaction_failed
    | reason :: _ =>
        if bool_decide (reason = Some "ConditionalCheckFailed"%string)
        then movie_not_found
        else transaction_failed
    end
  else if String.eqb error_code "ConditionalCheckFailedException" then
    movie_not_found
  else database_error e.

(** The entry appended for one queried interest. *)
Definition delete_of (interest : Interest.t) : TransactItem :=
  DeleteInterest (Interest.userId interest) (Interest.movieId interest).

(** The transaction built from the queried interests: the conditional
    delete of the movie first, then one delete per interest. *)
Definition transact_items (movie_id : pystr) (interests : list Interest.t)
    : list TransactItem :=
  [DeleteMovie movie_id (Some attribute_exists_movieId)]
  ++ (delete_of <$> interests).

Definition lambda_handler (event : Event) (rt : Runtime)
    : State -> response.t * State :=
  try_except_Exception
    (match movieId event with
     | None =>
         ret (error_response 400 "Missing movieId in path" ValidationError)
     | Some movie_id =>
         try_except_ClientError (interests_query rt movie_id) database_error
           (λ interests,
            try_except_ClientError
              (transact_write_items rt (transact_items movie_id interests))
              on_transaction_error
              (λ _, ret no_content_response))
     end)
    internal_server_error.

End delete_movie.

(** ** add_interest.py *)

Module add_interest.
Import response(success_response, error_response, no_content_response,
                MovieBody, InterestBody, MoviesBody).
Import dynamodb_client.

Definition lambda_handler (event : Event) (rt : Runtime)
    : State -> response.t * State :=
  try_except_Exception
    (match movieId event with
     | None =>
         ret (error_response 400 "Missing movieId in path" ValidationError)
     | Some movie_id =>
         match sub event with
         | None =>
             ret (error_response 401 "Unauthorized - missing user context"
                    AuthError)
         | Some user_id =>
             try_except_ClientError (movies_get_item rt movie_id)
               database_error
               (λ movie_response,
                match movie_response with
                | None =>
                    ret (error_response 404 "Movie not found" NotFoundError)
                | Some _ =>
                    let current_time := now rt in
                    let interest_item :=
                      {| Interest.userId := user_id;
                         Interest.movieId := movie_id;
                         Interest.createdAt := current_time |} in
                    try_except_ClientError
                      (interests_put_item rt interest_item)
                      database_error
                      (λ _, ret (success_response 201
                                   (InterestBody interest_item)))
                end)
         end
     end)
    internal_server_error.

End add_interest.

(** ** remove_interest.py *)

Module remove_interest.
Import response(success_response, error_response, no_content_response,
                MovieBody, InterestBody, MoviesBody).
Import dynamodb_client.

Definition lambda_handler (event : Event) (rt : Runtime)
    : State -> response.t * State :=
  try_except_Exception
    (match movieId event with
     | None =>
         ret (error_response 400 "Missing movieId in path" ValidationError)
     | Some movie_id =>
         match sub event with
         | None =>
             ret (error_response 401 "Unauthorized - missing user context"
                    AuthError)
         | Some user_id =>
             try_except_ClientError
               (interests_delete_item rt user_id movie_id)
               database_error
               (λ _, ret no_content_response)
         end
     end)
    internal_server_error.

End remove_interest.

(** ** update_movie_status.py *)

Module update_movie_status.
Import response(success_response, error_response, no_content_response,
                MovieBody, InterestBody, MoviesBody).
Import dynamodb_client.

(** The [except ClientError as e] branch around the update. *)
Definition on_update_error (e : service_error) : response.t :=
  if String.eqb (Code e) "ConditionalCheckFailedException"
  then error_response 404 "Movie not found" NotFoundError
  else database_error e.

Definition lambda_handler (event : Event) (rt : Runtime)
    : State -> response.t * State :=
  try_except_Exception
    (match movieId event with
     | None =>
         ret (error_response 400 "Missing movieId in path" ValidationError)
     | Some movie_id =>
         match json_loads_body (body event) with
         | inl e => raise e
         | inr None =>
             ret (error_response 400 "Invalid JSON in request body"
                    ValidationError)
         | inr (Some body) =>
             match dict_get (py "status") body with
             | None => raise (Exception "AttributeError")
             | Some new_status =>
                 match validation.validate_movie_status new_status,
                       new_status with
                 | (true, _), JStr st =>
                     let current_time := now rt in
                     try_except_ClientError
                       (movies_update_item rt movie_id st current_time)
                       on_update_error
                       (λ updated_movie,
                        ret (success_response 200 (MovieBody updated_movie)))
                 | (true, _), _ =>
                     (* not reached: a valid status is a str *)
                     raise (Exception "TypeError")
                 | (false, error_message), _ =>
                     ret (error_response 400 (message_of error_message)
                            ValidationError)
                 end
             end
         end
     end)
    internal_server_error.

End update_movie_status.

(** ** create_movie.py *)

Module create_movie.
Import response(success_response, error_response, no_content_response,
                MovieBody, InterestBody, MoviesBody).
Import dynamodb_client.

Definition lambda_handler (event : Event) (rt : Runtime)
    : State -> response.t * State :=
  try_except_Exception
    (match json_loads_body (body event) with
     | inl e => raise e
     | inr None =>
         ret (error_response 400 "Invalid JSON in request body"
                ValidationError)
     | inr (Some body) =>
         match dict_get (py "title") body with
         | None => raise (Exception "AttributeError")
         | Some title =>
             match validation.validate_movie_title title, title with
             | (false, error_message), _ =>
                 ret (error_response 400 (message_of error_message)
                        ValidationError)
             | (true, _), JStr title =>
                 match sub event with
                 | None =>
                     ret (error_response 401
                            "Unauthorized - missing user context" AuthError)
                 | Some user_id =>
                     let movie_id := uuid4 rt in
                     let current_time := now rt in
                     let movie_item :=
                       {| Movie.movieId := movie_id;
                          Movie.attributes :=
                            {| Movie.title := strip title;
                               Movie.status := py "wishlist";
                               Movie.createdBy := Some user_id;
                               Movie.createdAt := Some current_time;
                               Movie.updatedAt := current_time |} |} in
                     let interest_item :=
                       {| Interest.userId := user_id;
                          Interest.movieId := movie_id;
                          Interest.createdAt := current_time |} in
                     (* the inner [except Exception] answers as the
                        outermost one does *)
                     try_except_ClientError
                       (let* _ := movies_put_item rt movie_item in
                        interests_put_item rt interest_item)
                       database_error
                       (λ _, ret (success_response 201 (MovieBody movie_item)))
                 end
             | (true, _), _ =>
                 (* not reached: a valid title is a str *)
                 raise (Exception "AttributeError")
             end
         end
     end)
    internal_server_error.

End create_movie.

(** ** get_movies.py *)

(** [try: m  except ClientError as e: h], carrying on with the value. *)
Definition recover_ClientError {A} (m : Py A) (h : service_error -> A) : Py A :=
  λ s, match m s with
       | (Raise (ClientError e), s') => (Ok (h e), s')
       | r => r
       end.

(** [for x in xs: ys.append(f(x))] *)
Fixpoint for_each {A B} (f : A -> Py B) (xs : list A) : Py (list B) :=
  match xs with
  | [] => ret []
  | x :: r =>
      let* y := f x in
      let* ys := for_each f r in
      ret (y :: ys)
  end.

Module get_movies.
Import response(success_response, error_response, no_content_response,
                MovieBody, InterestBody, MoviesBody).
Import dynamodb_client.

(** The directory answers [None] when [list_users] raises; a user of the
    answer is its ['Username'], if it has one. *)
Definition get_username_from_user_id (rt : Runtime) (user_id : pystr)
    : pystr :=
  match list_users rt user_id with
  | Some (user :: _) => default user_id user
  | Some [] => user_id
  | None => user_id
  end.

(** [movie['createdBy'] = v] *)
Definition set_createdBy (v : pystr) (m : Movie.t) : Movie.t :=
  {| Movie.movieId := Movie.movieId m;
     Movie.attributes :=
       {| Movie.title := Movie.title (Movie.attributes m);
          Movie.status := Movie.status (Movie.attributes m);
          Movie.createdBy := Some v;
          Movie.createdAt := Movie.createdAt (Movie.attributes m);
          Movie.updatedAt := Movie.updatedAt (Movie.attributes m) |} |}.

(** The body of the loop over the scanned movies. *)
Definition enrich (rt : Runtime) (movie : Movie.t) : Py EnrichedMovie.t :=
  let movie_id := Movie.movieId movie in
  let movie :=
    set_createdBy
      (get_username_from_user_id rt
         (default [] (Movie.createdBy (Movie.attributes movie))))
      movie in
  recover_ClientError
    (let* interests := interests_query rt movie_id in
     let interested_users :=
       (λ interest, get_username_from_user_id rt (Interest.userId interest))
       <$> interests in
     ret {| EnrichedMovie.movie := movie;
            EnrichedMovie.interestedUsers := interested_users |})
    (λ _, {| EnrichedMovie.movie := movie;
             EnrichedMovie.interestedUsers := [] |}).

(** [key=lambda x: x.get('createdAt', 0)] *)
Definition sort_key (x : EnrichedMovie.t) : Z :=
  default 0 (Movie.createdAt (Movie.attributes (EnrichedMovie.movie x))).

(** [list.sort(key=sort_key, reverse=True)]. The sort is stable, also
    with [reverse=True]: elements with equal keys keep the order they had.
    That fixes the result, computed here by insertion. *)
Fixpoint insert_desc (x : EnrichedMovie.t) (l : list EnrichedMovie.t)
    : list EnrichedMovie.t :=
  match l with
  | [] => [x]
  | y :: r =>
      if sort_key x <? sort_key y then y :: insert_desc x r else x :: l
  end.

Definition sort_reverse (l : list EnrichedMovie.t) : list EnrichedMovie.t :=
  foldr insert_desc [] l.

Definition lambda_handler (event : Event) (rt : Runtime)
    : State -> response.t * State :=
  try_except_Exception
    (try_except_ClientError (movies_scan rt) database_error
       (λ movies,
        let* enriched_movies := for_each (enrich rt) movies in
        ret (success_response 200
               (MoviesBody (sort_reverse enriched_movies)))))
    internal_server_error.

End get_movies.

(** ** Repeated invocations

    [invoke_all h rts s]: the handler [h] invoked once per element of
    [rts], each invocation starting from the store the previous one left;
    the responses in order, and the final store. *)
Fixpoint invoke_all (h : Runtime -> State -> response.t * State)
    (rts : list Runtime) (s : State) : list response.t * State :=
  match rts with
  | [] => ([], s)
  | rt :: rest =>
      let '(r, s') := h rt s in
      let '(rs, s'') := invoke_all h rest s' in
      (r :: rs, s'')
  end.

(** The service refuses calls with a [ClientError] only. *)
Definition only_client_errors (rt : Runtime) : Prop :=
  ∀ tr c e, fault rt tr c = Some e → ∃ r, e = ClientError r.

(** ** get_interested_users.py

    The identity directory of this handler is read through
    [admin_get_user]; the pool identifier comes from the environment
    variable [USER_POOL_ID]. The body of the 200 answer is a list of user
    dicts, kept as such. *)

Module get_interested_users.
Import response(success_response, error_response, no_content_response,
                MovieBody, InterestBody, MoviesBody).
Import dynamodb_client.

(** The response of [cognito.admin_get_user]: ['Username'], when present,
    and the [(attr['Name'], attr['Value'])] of ['UserAttributes']. *)
Record UserResponse := {
  Username : option pystr;
  UserAttributes : list (pystr * pystr) }.

Record Environment := {
  USER_POOL_ID : option pystr;
  admin_get_user : pystr -> exn + UserResponse }.

(** A dict of the answer: with the directory, the three keys; without it,
    ['userId'] alone. *)
Inductive User :=
| UserDetails (userId : pystr) (username email : option pystr)
| UserIdOnly (userId : pystr).

Definition user_id_of (u : User) : pystr :=
  match u with
  | UserDetails i _ _ => i
  | UserIdOnly i => i
  end.

(** The answer of the handler: [success_response(status, users)], or one
    of the error responses. *)
Inductive Answer :=
| users_response (status_code : Z) (users : list User)
| other_response (r : response.t).

(** The loop over [UserAttributes]: the value of the first attribute
    named ['email']. *)
Fixpoint email_of (attributes : list (pystr * pystr)) : option pystr :=
  match attributes with
  | [] => None
  | (name, value) :: r =>
      if pystr_eqb name (py "email") then Some value else email_of r
  end.

(** The loop over the interests when the pool is configured. A
    [ClientError] of the directory gives an entry without name and email;
    any other exception leaves the loop. *)
Fixpoint user_details (env : Environment) (interests : list Interest.t)
    : exn + list User :=
  match interests with
  | [] => inr []
  | interest :: rest =>
      let user_id := Interest.userId interest in
      let entry :=
        match admin_get_user env user_id with
        | inr user_response =>
            inr (UserDetails user_id (Username user_response)
                   (email_of (UserAttributes user_response)))
        | inl (ClientError _) => inr (UserDetails user_id None None)
        | inl e => inl e
        end in
      match entry with
      | inl e => inl e
      | inr u =>
          match user_details env rest with
          | inl e => inl e
          | inr us => inr (u :: us)
          end
      end
  end.

(** [if user_pool_id:] *)
Definition truthy (v : option pystr) : bool :=
  match v with
  | Some (_ :: _) => true
  | _ => false
  end.

Definition lambda_handler (event : Event) (rt : Runtime) (env : Environment)
    : State -> Answer * State :=
  λ s,
    match movieId event with
    | None =>
        (other_response
           (error_response 400 "Missing movieId in path" ValidationError), s)
    | Some movie_id =>
        match interests_query rt movie_id s with
        | (Raise (ClientError e), s') => (other_response (database_error e), s')
        | (Raise _, s') => (other_response internal_server_error, s')
        | (Ok interests, s') =>
            if truthy (USER_POOL_ID env) then
              match user_details env interests with
              | inr users => (users_response 200 users, s')
              | inl _ => (other_response internal_server_error, s')
              end
            else
              (users_response 200
                 ((λ interest, UserIdOnly (Interest.userId interest))
                  <$> interests), s')
        end
    end.

End get_interested_users.

(** ** text-to-audio/terraform/lambda_function.py

    The handler reads a text object, has it synthesised and uploads the
    audio; what is embedded here is the part that decides where the
    audio goes: the normalised output folder and the name of the output
    file, both computed from strings alone. [str.lower] follows the
    Unicode case mappings, which are not reproduced: it is a parameter. *)

Module text_to_audio.

(** [s.startswith(p)] *)
Fixpoint starts_with (p s : pystr) : bool :=
  match p, s with
  | [], _ => true
  | _ :: _, [] => false
  | a :: p', c :: s' => if pystr_eqb [a] [c] then starts_with p' s' else false
  end.

(** [s.replace(old, new)] for a non-empty [old]: the occurrences of [old]
    are found from the left and do not overlap. [skip] counts the
    characters of an occurrence still to pass over. *)
Fixpoint replace_from (old new : pystr) (skip : nat) (s : pystr) : pystr :=
  match s with
  | [] => []
  | c :: r =>
      match skip with
      | S k => replace_from old new k r
      | O =>
          if starts_with old s
          then new ++ replace_from old new (length old - 1) r
          else c :: replace_from old new 0 r
      end
  end.

Definition replace (old new s : pystr) : pystr := replace_from old new 0 s.

(** [s.split('/')[-1]]: what follows the last ['/'], all of [s] when it
    has none. *)
Fixpoint until_slash (s : pystr) : pystr :=
  match s with
  | [] => []
  | c :: r => if pystr_eqb [c] (py "/") then [] else c :: until_slash r
  end.

Definition last_segment (s : pystr) : pystr := rev (until_slash (rev s)).

(** [s.endswith('/')] *)
Definition ends_with_slash (s : pystr) : bool :=
  match rev s with
  | c :: _ => pystr_eqb [c] (py "/")
  | [] => false
  end.

(** Lines 13 to 15: the folder from the environment, with a final ['/']. *)
Definition output_folder (folder : pystr) : pystr :=
  if ends_with_slash folder then folder else folder ++ py "/".

Section naming.
Variable lower : pystr -> pystr.

(** Lines 27 to 30: the name of the audio file for the key [file_in]. *)
Definition file_out (file_in : pystr) : pystr :=
  let file_out := last_segment file_in in
  let file_out :=
    replace (py ".txt") []
      (replace (py ")") []
         (replace (py "(") []
            (replace (py " ") (py "_") (lower file_out)))) in
  file_out ++ py ".mp3".

(** Line 60: the key the audio is uploaded under. *)
Definition upload_key (folder file_in : pystr) : pystr :=
  output_folder folder ++ file_out file_in.
End naming.

(** Lower case for the letters A to Z, every other character kept: what
    [str.lower] does on ASCII strings. *)
Definition ascii_lower (s : pystr) : pystr :=
  (λ c, if ((65 <=? c) && (c <=? 90))%N then (c + 32)%N else c) <$> s.

End text_to_audio.

(** ** The handlers that answer with a [response.t], and the stores they
    can build

    [reachable s]: [s] is the empty store, or the store one of the
    handlers leaves when invoked, on any event and under any behaviour of
    the clock, the identifier source and the service, on a reachable
    store. *)

Definition handlers : list (Event -> Runtime -> State -> response.t * State) :=
  [create_movie.lambda_handler; get_movies.lambda_handler;
   update_movie_status.lambda_handler; add_interest.lambda_handler;
   remove_interest.lambda_handler; delete_movie.lambda_handler].

Inductive reachable : State -> Prop :=
| reachable_empty :
    reachable {| db := {| movies_table := ∅; interests_table := ∅ |};
                 calls := [] |}
| reachable_step h event rt s :
    reachable s -> h ∈ handlers -> reachable (h event rt s).2.

(** Every Interest references a stored movie. *)
Definition referential (d : Db) : Prop :=
  ∀ k v, interests_table d !! k = Some v → is_Some (movies_table d !! k.2).

(** A stored movie as [create_movie] and [update_movie_status] write it:
    a stripped, non-empty title of at most 500 characters, one of the two
    statuses, and the creator and creation time present. *)
Definition well_formed_movie (a : Movie.attrs) : Prop :=
  strip (Movie.title a) = Movie.title a
  ∧ 0 < len (Movie.title a) ≤ 500
  ∧ Movie.status a ∈ validation.valid_statuses
  ∧ is_Some (Movie.createdBy a)
  ∧ is_Some (Movie.createdAt a).

(** ** Vocabulary and sample data of the properties *)

(** The response is a rejection of the request as invalid. *)
Definition is_validation_error (r : response.t) : Prop :=
  ∃ msg, response.body r = response.ErrorBody msg ValidationError.

(** An event whose body is the JSON object [{"title": title}]. *)
Definition title_event (title : json) (user : option pystr) : Event :=
  {| movieId := None; sub := user;
     body := body_text (Some (JObj [(py "title", title)])) |}.

Definition quiet_runtime (t : Z) (id : pystr) : Runtime :=
  {| now := t; uuid4 := id; list_users := λ _, Some [];
     fault := λ _ _, None |}.

Definition empty_store : State :=
  {| db := {| movies_table := ∅; interests_table := ∅ |}; calls := [] |}.

Definition orphan_store : State :=
  {| db := {| movies_table := ∅;
              interests_table := {[ (py "u1", py "m1") := 5 ]} |};
     calls := [] |}.

Definition path_event (movie_id user : string) : Event :=
  {| movieId := Some (py movie_id); sub := Some (py user);
     body := body_absent |}.

(** The records of a table stored under one key. *)
Definition stored_under (k : pystr * pystr) (t : gmap (pystr * pystr) Z)
    : gmap (pystr * pystr) Z :=
  filter (λ kv, kv.1 = k) t.

Definition one_movie_store : State :=
  {| db := {| movies_table :=
                {[ py "m1" := {| Movie.title := py "Inception";
                                 Movie.status := py "wishlist";
                                 Movie.createdBy := Some (py "u1");
                                 Movie.createdAt := Some 1000;
                                 Movie.updatedAt := 1000 |} ]};
              interests_table := {[ (py "u1", py "m1") := 1000 ]} |};
     calls := [] |}.

(** An event for movie [movie_id] whose body is [{"status": st}]. *)
Definition status_event (movie_id st : string) : Event :=
  {| movieId := Some (py movie_id); sub := None;
     body := body_text (Some (JObj [(py "status", JStr (py st))])) |}.

Definition downloaded_store : State :=
  {| db := {| movies_table :=
                {[ py "m1" := {| Movie.title := py "Inception";
                                 Movie.status := py "downloaded";
                                 Movie.createdBy := Some (py "u1");
                                 Movie.createdAt := Some 1000;
                                 Movie.updatedAt := 1500 |} ]};
              interests_table := ∅ |};
     calls := [] |}.

(** The status stored for a movie. *)
Definition status_of (movie_id : pystr) (s : State) : option pystr :=
  Movie.status <$> movies_table (db s) !! movie_id.

Definition updatedAt_of (movie_id : pystr) (s : State) : option Z :=
  Movie.updatedAt <$> movies_table (db s) !! movie_id.




(** The name the identity directory gives for an identifier: the
    ['Username'] of the first user it finds, and the identifier itself
    when it raises, finds nobody, or finds a user without that key. *)
Definition directory_name (rt : Runtime) (user_id : pystr) : pystr :=
  match list_users rt user_id with
  | Some (Some name :: _) => name
  | _ => user_id
  end.

(** A runtime whose store raises, on every interests query for
    [movie_id], an exception that is not a [ClientError]. *)
Definition query_raises (movie_id : pystr) : Runtime :=
  {| now := 100; uuid4 := py "id-1"; list_users := λ _, Some [];
     fault := λ _ c,
       match c with
       | Query k =>
           if bool_decide (k = movie_id)
           then Some (Exception "EndpointConnectionError")
           else None
       | _ => None
       end |}.

Definition listed_id (x : EnrichedMovie.t) : pystr :=
  Movie.movieId (EnrichedMovie.movie x).

Definition wishlist_movie (title : string) (t : Z) : Movie.attrs :=
  {| Movie.title := py title; Movie.status := py "wishlist";
     Movie.createdBy := Some (py "u1"); Movie.createdAt := Some t;
     Movie.updatedAt := t |}.

Definition three_movies_store : State :=
  {| db := {| movies_table :=
                {[ py "m1" := wishlist_movie "Alien" 1000;
                   py "m2" := wishlist_movie "Brazil" 3000;
                   py "m3" := wishlist_movie "Casablanca" 2000 ]};
              interests_table :=
                {[ (py "u1", py "m1") := 1000; (py "u2", py "m1") := 1100;
                   (py "u1", py "m2") := 3000 ]} |};
     calls := [] |}.

Definition throttled : service_error :=
  {| Code := "ProvisionedThroughputExceededException";
     Message := "Rate exceeded"; CancellationReasons := [] |}.

(** A runtime whose store refuses every interests query for [movie_id]. *)
Definition query_refused (movie_id : pystr) : Runtime :=
  {| now := 100; uuid4 := py "id-1"; list_users := λ _, Some [];
     fault := λ _ c,
       match c with
       | Query k =>
           if bool_decide (k = movie_id) then Some (ClientError throttled)
           else None
       | _ => None
       end |}.

(** A runtime whose store refuses every write of an Interest. *)
Definition interest_put_refused : Runtime :=
  {| now := 100; uuid4 := py "id-1"; list_users := λ _, Some [];
     fault := λ _ c,
       match c with
       | PutInterest _ => Some (ClientError throttled)
       | _ => None
       end |}.

(** No pool configured: [USER_POOL_ID] is not set. *)
Definition no_directory : get_interested_users.Environment :=
  {| get_interested_users.USER_POOL_ID := None;
     get_interested_users.admin_get_user := λ _, inl (Exception "not called") |}.

(** A pool that knows no user: every lookup is a [ClientError]. *)
Definition empty_directory : get_interested_users.Environment :=
  {| get_interested_users.USER_POOL_ID := Some (py "pool-1");
     get_interested_users.admin_get_user := λ _,
       inl (ClientError {| Code := "UserNotFoundException";
                           Message := "User does not exist.";
                           CancellationReasons := [] |}) |}.

(** What [get_movies] makes of a scanned movie when its interests query
    is answered: the creator and the users of its interests, each
    resolved through the directory. *)
Definition enriched (rt : Runtime) (d : Db) (mv : Movie.t) : EnrichedMovie.t :=
  {| EnrichedMovie.movie :=
       get_movies.set_createdBy
         (get_movies.get_username_from_user_id rt
            (default [] (Movie.createdBy (Movie.attributes mv)))) mv;
     EnrichedMovie.interestedUsers :=
       (λ i, get_movies.get_username_from_user_id rt (Interest.userId i))
       <$> query_items (Movie.movieId mv) d |}.

(** A directory that fails on every lookup. *)
Definition directory_raises (t : Z) : Runtime :=
  {| now := t; uuid4 := py "id-1"; list_users := λ _, None;
     fault := λ _ _, None |}.

(** The item [add_interest] writes in an invocation. *)
Definition interest_item_at (movie_id user_id : pystr) (rt : Runtime)
    : Interest.t :=
  {| Interest.userId := user_id; Interest.movieId := movie_id;
     Interest.createdAt := now rt |}.

(** The two items [create_movie] builds. *)
Definition new_movie (rt : Runtime) (t user_id : pystr) : Movie.t :=
  {| Movie.movieId := uuid4 rt;
     Movie.attributes :=
       {| Movie.title := strip t;
          Movie.status := py "wishlist";
          Movie.createdBy := Some user_id;
          Movie.createdAt := Some (now rt);
          Movie.updatedAt := now rt |} |}.

Definition creator_interest (rt : Runtime) (user_id : pystr) : Interest.t :=
  {| Interest.userId := user_id; Interest.movieId := uuid4 rt;
     Interest.createdAt := now rt |}.

(** Turn the result of a run, bound by [let r := ...], into a variable
    with an equation to compute in. *)
Ltac name_run r Hr :=
  intros r; pose proof (eq_refl r) as Hr; unfold r at 2 in Hr; clearbody r.

(** * Properties *)

(** ** Stripping *)

Lemma lstrip_all_space (s : pystr) :
  forallb is_space s = true → lstrip s = [].
Proof.
  induction s as [|c r IH]; simpl; [done|].
  intros [Hc Hr]%andb_prop. rewrite Hc. auto.
Qed.

Lemma strip_all_space (s : pystr) :
  forallb is_space s = true → strip s = [].
Proof.
  intros H. unfold strip, rstrip. by rewrite (lstrip_all_space s H).
Qed.

Lemma validate_title_nonempty (t : pystr) :
  0 < len (strip t) →
  validation.validate_movie_title (JStr t)
  = if 500 <? len (strip t)
    then (false, Some "Title cannot exceed 500 characters"%string)
    else (true, None).
Proof.
  unfold validation.validate_movie_title, len.
  destruct (strip t); simpl; [lia|done].
Qed.

(** ** Running the handlers: unfolding lemmas *)

Lemma store_call_ok {A} (rt : Runtime) (c : Call)
    (run : Db -> (service_error + A) * Db) (s : State) :
  fault rt (calls s) c = None →
  store_call rt c run s
  = match run (db s) with
    | (inr a, d) => (Ok a, {| db := d; calls := calls s ++ [c] |})
    | (inl e, d) =>
        (Raise (ClientError e), {| db := d; calls := calls s ++ [c] |})
    end.
Proof. intros H. unfold store_call. by rewrite H. Qed.

Lemma store_call_fault {A} (rt : Runtime) (c : Call)
    (run : Db -> (service_error + A) * Db) (s : State) (e : exn) :
  fault rt (calls s) c = Some e →
  store_call rt c run s
  = (Raise e, {| db := db s; calls := calls s ++ [c] |}).
Proof. intros H. unfold store_call. by rewrite H. Qed.

(** A refused call leaves the tables as they were; so does every call
    whatever its outcome when [run] does. *)
Lemma store_call_db {A} (rt : Runtime) (c : Call)
    (run : Db -> (service_error + A) * Db) (s : State) :
  (∀ d, (run d).2 = d) →
  db (store_call rt c run s).2 = db s.
Proof.
  intros H. unfold store_call.
  destruct (fault rt (calls s) c); [done|].
  specialize (H (db s)). destruct (run (db s)) as [[e|a] d]; simpl in *; done.
Qed.

(** ** Title validation of [create_movie] *)

(** C7. The title of a [create_movie] request, read from the parsed
    body, is accepted when its stripped length is exactly 500, and the
    request is answered 400 [ValidationError], with nothing stored, when
    the stripped length is 501 ("cannot exceed 500 characters"), when the
    title is empty or consists of white space only ("cannot be empty or
    whitespace only"), when it is absent or null ("is required") and when
    it is not a string ("must be a string"). *)
Theorem create_movie_title_validation
    (event : Event) (rt : Runtime) (s : State) (b title : json) :
  json_loads_body (body event) = inr (Some b) →
  dict_get (py "title") b = Some title →
  let r := create_movie.lambda_handler event rt s in
  let rejects msg :=
    validation.validate_movie_title title = (false, Some msg)
    ∧ r = (response.error_response 400 msg ValidationError, s) in
  (∀ t, title = JStr t → len (strip t) = 500 →
     validation.validate_movie_title title = (true, None)
     ∧ ¬ is_validation_error r.1)
  ∧ (∀ t, title = JStr t → len (strip t) = 501 →
     rejects "Title cannot exceed 500 characters"%string)
  ∧ (∀ t, title = JStr t → forallb is_space t = true →
     rejects "Title cannot be empty or whitespace only"%string)
  ∧ (title = JNull → rejects "Title is required"%string)
  ∧ ((∀ t, title ≠ JStr t) → title ≠ JNull →
     rejects "Title must be a string"%string).
Proof.
  intros Hb Ht r rejects. subst r rejects.
  unfold create_movie.lambda_handler, try_except_Exception.
  rewrite Hb, Ht.
  split; [|split; [|split; [|split]]].
  - intros t -> Hlen. rewrite validate_title_nonempty by lia.
    rewrite Hlen. split; [done|]. simpl. intros [msg Hmsg]. revert Hmsg.
    destruct (sub event) as [u|]; simpl; [|discriminate].
    unfold try_except_ClientError, bind, dynamodb_client.movies_put_item,
      dynamodb_client.interests_put_item, store_call; simpl.
    destruct (fault rt _ _) as [[e|w]|]; simpl;
      try discriminate;
      [unfold database_error;
       destruct (dynamodb_client.handle_client_error e); discriminate|].
    destruct (fault rt _ _) as [[e|w]|]; simpl;
      try discriminate.
    unfold database_error;
      destruct (dynamodb_client.handle_client_error e); discriminate.
  - intros t -> Hlen. rewrite validate_title_nonempty by lia.
    rewrite Hlen. done.
  - intros t -> Hsp. unfold validation.validate_movie_title.
    by rewrite (strip_all_space t Hsp).
  - by intros ->.
  - intros Hns Hnn. destruct title; try done. by destruct (Hns s0).
Qed.

Lemma create_movie_title_validation_witness :
  let a500 := JStr (repeat 65%N 500 ++ [32%N]) in
  let a501 := JStr ([32%N] ++ repeat 65%N 501) in
  let blank := JStr [32%N; 9%N; 160%N] in
  let rt := quiet_runtime 100 (py "id-1") in
  let run title :=
    create_movie.lambda_handler (title_event title (Some (py "u1"))) rt
      empty_store in
  (validation.validate_movie_title a500 = (true, None)
   ∧ ¬ is_validation_error (run a500).1)
  ∧ (run a501).1
    = response.error_response 400 "Title cannot exceed 500 characters"
        ValidationError
  ∧ (run blank).1
    = response.error_response 400 "Title cannot be empty or whitespace only"
        ValidationError
  ∧ (run (JStr [])).1
    = response.error_response 400 "Title cannot be empty or whitespace only"
        ValidationError
  ∧ (run JNull).1
    = response.error_response 400 "Title is required" ValidationError
  ∧ (run (JNum 7)).1
    = response.error_response 400 "Title must be a string" ValidationError.
Proof.
  intros a500 a501 blank rt run.
  pose proof (λ title, create_movie_title_validation
                (title_event title (Some (py "u1"))) rt empty_store
                (JObj [(py "title", title)]) title eq_refl eq_refl) as H.
  split; [split|split; [|split; [|split; [|split]]]].
  - apply (proj1 (H a500) _ eq_refl). vm_compute. reflexivity.
  - apply (proj1 (H a500) _ eq_refl). vm_compute. reflexivity.
  - refine (f_equal fst (proj2 (proj1 (proj2 (H a501)) _ eq_refl _))).
    vm_compute. reflexivity.
  - refine (f_equal fst (proj2 (proj1 (proj2 (proj2 (H blank))) _ eq_refl _))).
    vm_compute. reflexivity.
  - refine (f_equal fst
              (proj2 (proj1 (proj2 (proj2 (H (JStr [])))) _ eq_refl _))).
    vm_compute. reflexivity.
  - exact (f_equal fst
             (proj2 (proj1 (proj2 (proj2 (proj2 (H JNull)))) eq_refl))).
  - refine (f_equal fst
              (proj2 (proj2 (proj2 (proj2 (proj2 (H (JNum 7))))) _ _)));
      discriminate.
Defined.

(** ** The cascade deletion *)

Section cascade.
Implicit Types (d : Db) (l : list Interest.t) (k : pystr * pystr).

Local Abbreviation delete_of := delete_movie.delete_of.

Lemma interest_deletes_pass d l : forallb (item_passes d) (delete_of <$> l) = true.
Proof. by induction l. Qed.

Lemma interest_deletes_movies d l :
  movies_table (foldl apply_item d (delete_of <$> l)) = movies_table d.
Proof.
  revert d. induction l as [|i l IH]; intros d; simpl; [done|].
  by rewrite IH.
Qed.

Lemma interest_deletes_lookup d l k :
  interests_table (foldl apply_item d (delete_of <$> l)) !! k
  = if decide (k ∈ Interest.key <$> l) then None
    else interests_table d !! k.
Proof.
  revert d. induction l as [|i l IH]; intros d.
  - simpl. done.
  - rewrite !fmap_cons. cbn [foldl]. rewrite IH. simpl.
    change (Interest.userId i, Interest.movieId i) with (Interest.key i).
    destruct (decide (k = Interest.key i)) as [->|Hne].
    + rewrite lookup_delete_eq.
      rewrite (decide_True (P := _ ∈ _ :: _)) by apply list_elem_of_here.
      by case_decide.
    + rewrite lookup_delete_ne by done.
      case_decide as H1; case_decide as H2; try done.
      * destruct H2. by apply list_elem_of_further.
      * apply elem_of_cons in H2 as [?|?]; done.
Qed.

Lemma query_items_keys d (movie_id : pystr) k :
  k ∈ Interest.key <$> query_items movie_id d
  ↔ is_Some (interests_table d !! k) ∧ k.2 = movie_id.
Proof.
  unfold query_items, interests_of. rewrite <- list_fmap_compose.
  rewrite list_elem_of_fmap. split.
  - intros [[k' v] [-> H]]. apply elem_of_map_to_list in H.
    apply map_lookup_filter_Some in H as [H1 H2]. simpl in *.
    destruct k'. split; [by eexists|done].
  - intros [[v Hv] Hk]. exists (k, v). split; [by destruct k|].
    apply elem_of_map_to_list. apply map_lookup_filter_Some. done.
Qed.

(** Deleting every queried interest of a movie leaves exactly the
    interests of the other movies. *)
Lemma cascade_interests d (movie_id : pystr) :
  interests_table
    (foldl apply_item d (delete_of <$> query_items movie_id d))
  = interests_not_of movie_id (interests_table d).
Proof.
  apply map_eq. intros k. rewrite interest_deletes_lookup.
  unfold interests_not_of. case_decide as H.
  - apply query_items_keys in H as [_ H]. symmetry.
    apply map_lookup_filter_None. right. intros v _. simpl. by intros [].
  - destruct (interests_table d !! k) as [v|] eqn:Hk.
    + symmetry. apply map_lookup_filter_Some. split; [done|]. simpl.
      intros Heq. apply H. apply query_items_keys. split; [by eexists|done].
    + symmetry. apply map_lookup_filter_None. by left.
Qed.

Lemma transact_commits d (movie_id : pystr) :
  is_Some (movies_table d !! movie_id) →
  transact (delete_movie.transact_items movie_id (query_items movie_id d)) d
  = inr {| movies_table := delete movie_id (movies_table d);
           interests_table := interests_not_of movie_id (interests_table d) |}.
Proof.
  intros Hm. unfold transact, delete_movie.transact_items. simpl.
  rewrite bool_decide_true by done. simpl.
  fold delete_of. rewrite interest_deletes_pass. f_equal.
  pose proof (interest_deletes_movies (dynamodb.delete_movie movie_id d)
                (query_items movie_id d)) as HM.
  pose proof (cascade_interests d movie_id) as HI.
  pose proof (interest_deletes_lookup (dynamodb.delete_movie movie_id d)
                (query_items movie_id d)) as HL.
  destruct (foldl apply_item (dynamodb.delete_movie movie_id d) _)
    as [mt it] eqn:E.
  simpl in *. subst mt. f_equal.
  rewrite <- HI. apply map_eq. intros k.
  rewrite HL. by rewrite interest_deletes_lookup.
Qed.

Lemma transact_cancels d (movie_id : pystr) l :
  movies_table d !! movie_id = None →
  ∃ reasons,
    transact (delete_movie.transact_items movie_id l) d
    = inl (transaction_canceled ("ConditionalCheckFailed"%string :: reasons)).
Proof.
  intros Hm. unfold transact, delete_movie.transact_items. simpl.
  rewrite bool_decide_false by (rewrite Hm; by intros [? ?]). simpl.
  eexists. unfold reason_code at 1. simpl.
  rewrite bool_decide_false by (rewrite Hm; by intros [? ?]). done.
Qed.

(** A transaction either fails and writes nothing, or applies all. *)
Lemma transact_write_items_db rt items (s : State) :
  db (dynamodb_client.transact_write_items rt items s).2 = db s
  ∨ ∃ d', transact items (db s) = inr d'
        ∧ dynamodb_client.transact_write_items rt items s
          = (Ok tt, {| db := d'; calls := calls s ++ [TransactWriteItems items] |}).
Proof.
  unfold dynamodb_client.transact_write_items, store_call.
  destruct (fault rt _ _); [by left|].
  destruct (transact items (db s)) as [e|d'] eqn:E; [by left|].
  right. by exists d'.
Qed.
End cascade.

Lemma database_error_not_success (e : service_error) :
  response.statusCode (database_error e) ≠ 204
  ∧ response.statusCode (database_error e) ≠ 201
  ∧ response.statusCode (database_error e) ≠ 200.
Proof.
  unfold database_error, dynamodb_client.handle_client_error.
  repeat (destruct (String.eqb _ _)); simpl; lia.
Qed.

Lemma on_transaction_error_not_success (e : service_error) :
  response.statusCode (delete_movie.on_transaction_error e) ≠ 204.
Proof.
  unfold delete_movie.on_transaction_error.
  destruct (String.eqb _ _).
  - destruct (CancellationReasons e) as [|r0 ?].
    + by destruct (_ || _).
    + by case_bool_decide.
  - destruct (String.eqb _ _); [done|].
    apply database_error_not_success.
Qed.

Lemma interests_of_not_of (movie_id : pystr) (t : gmap (pystr * pystr) Z) :
  interests_of movie_id (interests_not_of movie_id t) = ∅.
Proof.
  apply map_eq. intros k. rewrite lookup_empty.
  apply map_lookup_filter_None. right. intros v Hv Hk.
  apply map_lookup_filter_Some in Hv as [_ Hv]. done.
Qed.

(** C1. [delete_movie] is atomic, whatever the service does: either no
    table is changed and the answer is not 204, or the movie existed, the
    answer is 204, the movie is gone together with every interest that
    referenced it (all the other movies and interests being as before),
    and the store was written by one call only, a single
    [transact_write_items] holding the conditional delete of the movie and
    one delete per queried interest. *)
Theorem delete_movie_atomic (event : Event) (rt : Runtime) (s : State) :
  let r := delete_movie.lambda_handler event rt s in
  (response.statusCode r.1 ≠ 204 ∧ db r.2 = db s)
  ∨ (∃ movie_id,
       movieId event = Some movie_id
       ∧ is_Some (movies_table (db s) !! movie_id)
       ∧ r.1 = response.no_content_response
       ∧ movies_table (db r.2) = delete movie_id (movies_table (db s))
       ∧ interests_table (db r.2)
         = interests_not_of movie_id (interests_table (db s))
       ∧ interests_of movie_id (interests_table (db r.2)) = ∅
       ∧ calls r.2
         = calls s
           ++ [Query movie_id;
               TransactWriteItems
                 (delete_movie.transact_items movie_id
                    (query_items movie_id (db s)))]).
Proof.
  name_run r Hr.
  unfold delete_movie.lambda_handler, try_except_Exception in Hr.
  destruct (movieId event) as [movie_id|]; [|subst r; by left].
  unfold try_except_ClientError, dynamodb_client.interests_query,
    dynamodb_client.transact_write_items, store_call in Hr; simpl in Hr.
  destruct (fault rt (calls s) (Query movie_id)) as [[e|w]|]; simpl in Hr.
  - subst r. left. split; [apply database_error_not_success|done].
  - subst r. by left.
  - destruct (fault rt _ _) as [[e|w]|]; simpl in Hr.
    + subst r. left. split; [apply on_transaction_error_not_success|done].
    + subst r. by left.
    + destruct (movies_table (db s) !! movie_id) as [a|] eqn:Hm.
      * rewrite transact_commits in Hr by (by rewrite Hm). simpl in Hr.
        subst r. right. exists movie_id. simpl.
        rewrite interests_of_not_of, <- app_assoc. done.
      * destruct (transact_cancels (db s) movie_id
                    (query_items movie_id (db s)) Hm) as [reasons Hc].
        rewrite Hc in Hr. simpl in Hr. subst r. left. done.
Qed.

(** With the store available, deleting a stored movie does commit. *)
Lemma delete_movie_commits (event : Event) (rt : Runtime) (s : State)
    (movie_id : pystr) :
  movieId event = Some movie_id →
  is_Some (movies_table (db s) !! movie_id) →
  store_available rt →
  (delete_movie.lambda_handler event rt s).1 = response.no_content_response.
Proof.
  intros Hev Hm Hrt.
  unfold delete_movie.lambda_handler, try_except_Exception.
  rewrite Hev.
  unfold try_except_ClientError, dynamodb_client.interests_query,
    dynamodb_client.transact_write_items, store_call; simpl.
  repeat (rewrite Hrt; simpl).
  by rewrite transact_commits.
Qed.

(** C2. [delete_movie] on an identifier under which no movie is stored
    changes no table, whatever the service does; in particular the
    interests the query finds for that identifier stay. When the store is
    available the answer is 404 [NotFoundError]: the condition on the
    movie cancels the transaction, which the handler reads off the first
    cancellation reason. *)
Theorem delete_movie_not_found (event : Event) (rt : Runtime) (s : State)
    (movie_id : pystr) :
  movieId event = Some movie_id →
  movies_table (db s) !! movie_id = None →
  let r := delete_movie.lambda_handler event rt s in
  db r.2 = db s
  ∧ interests_of movie_id (interests_table (db r.2))
    = interests_of movie_id (interests_table (db s))
  ∧ (store_available rt →
     r.1 = response.error_response 404 "Movie not found" NotFoundError).
Proof.
  intros Hev Hm. name_run r Hr.
  unfold delete_movie.lambda_handler, try_except_Exception in Hr.
  rewrite Hev in Hr.
  unfold try_except_ClientError, dynamodb_client.interests_query,
    dynamodb_client.transact_write_items, store_call in Hr; simpl in Hr.
  destruct (transact_cancels (db s) movie_id
              (query_items movie_id (db s)) Hm) as [reasons Hc].
  assert (Hdb : db r.2 = db s).
  { destruct (fault rt (calls s) (Query movie_id)) as [[e|w]|];
      simpl in Hr; [by subst r..|].
    destruct (fault rt _ _) as [[e|w]|]; simpl in Hr; [by subst r..|].
    rewrite Hc in Hr. by subst r. }
  split; [done|]. split; [by rewrite Hdb|].
  intros Hrt. repeat (rewrite Hrt in Hr; simpl in Hr).
  rewrite Hc in Hr. by subst r.
Qed.

Lemma delete_movie_not_found_witness :
  let r := delete_movie.lambda_handler (path_event "m1" "u1")
             (quiet_runtime 100 (py "id-1")) orphan_store in
  r.1 = response.error_response 404 "Movie not found" NotFoundError
  ∧ db r.2 = db orphan_store.
Proof.
  destruct (delete_movie_not_found (path_event "m1" "u1")
              (quiet_runtime 100 (py "id-1")) orphan_store (py "m1")
              eq_refl eq_refl) as (H1 & _ & H3).
  split; [apply H3; by intros ? ?|exact H1].
Defined.

(** ** Adding and removing interest *)

Section interest.
Variables (event : Event) (movie_id user_id : pystr).
Hypothesis Hmovie : movieId event = Some movie_id.
Hypothesis Huser : sub event = Some user_id.

Local Abbreviation item_at := (interest_item_at movie_id user_id).

Lemma add_interest_once (rt : Runtime) (s : State) :
  is_Some (movies_table (db s) !! movie_id) →
  store_available rt →
  add_interest.lambda_handler event rt s
  = (response.success_response 201
       (response.InterestBody (item_at rt)),
     {| db := put_interest (item_at rt) (db s);
        calls := calls s
                 ++ [GetItem movie_id; PutInterest (item_at rt)] |}).
Proof.
  intros [a Ha] Hrt.
  unfold add_interest.lambda_handler, try_except_Exception.
  rewrite Hmovie, Huser.
  unfold try_except_ClientError, dynamodb_client.movies_get_item,
    dynamodb_client.interests_put_item, store_call, get_item; simpl.
  rewrite Hrt, Ha. simpl. rewrite Hrt. simpl.
  by rewrite <- app_assoc.
Qed.

Lemma add_interest_all (rts : list Runtime) (s : State) :
  is_Some (movies_table (db s) !! movie_id) →
  Forall store_available rts →
  invoke_all (add_interest.lambda_handler event) rts s
  = ((λ rt, response.success_response 201
              (response.InterestBody (item_at rt))) <$> rts,
     {| db := foldl (λ d rt, put_interest (item_at rt) d) (db s) rts;
        calls := calls s
                 ++ (rts ≫= λ rt,
                       [GetItem movie_id;
                        PutInterest (item_at rt)]) |}).
Proof.
  revert s. induction rts as [|rt rts IH]; intros s Hs Hrts; simpl.
  - rewrite app_nil_r. by destruct s.
  - apply Forall_cons in Hrts as [Hrt Hrts].
    rewrite add_interest_once by done.
    rewrite IH by done. simpl. by rewrite <- app_assoc.
Qed.

Lemma put_interests_overwritten (rts : list Runtime) (d : Db) (v : Z) :
  <[(user_id, movie_id) := v]>
    (interests_table
       (foldl (λ d rt, put_interest (item_at rt) d) d rts))
  = <[(user_id, movie_id) := v]> (interests_table d).
Proof.
  revert d. induction rts as [|rt rts IH]; intros d; simpl; [done|].
  rewrite IH. simpl. unfold Interest.key. simpl.
  by rewrite insert_insert_eq.
Qed.

Lemma put_interests_movies (rts : list Runtime) (d : Db) :
  movies_table (foldl (λ d rt, put_interest (item_at rt) d) d rts)
  = movies_table d.
Proof.
  revert d. induction rts as [|rt rts IH]; intros d; simpl; [done|].
  by rewrite IH.
Qed.

Lemma remove_interest_once (rt : Runtime) (s : State) :
  store_available rt →
  remove_interest.lambda_handler event rt s
  = (response.no_content_response,
     {| db := delete_interest user_id movie_id (db s);
        calls := calls s ++ [DeleteItem user_id movie_id] |}).
Proof.
  intros Hrt.
  unfold remove_interest.lambda_handler, try_except_Exception.
  rewrite Hmovie, Huser.
  unfold try_except_ClientError, dynamodb_client.interests_delete_item,
    store_call; simpl.
  by rewrite Hrt.
Qed.

Lemma remove_interest_all (rts : list Runtime) (s : State) :
  Forall store_available rts →
  invoke_all (remove_interest.lambda_handler event) rts s
  = ((λ _, response.no_content_response) <$> rts,
     {| db := foldl (λ d _, delete_interest user_id movie_id d) (db s) rts;
        calls := calls s ++ ((λ _, DeleteItem user_id movie_id) <$> rts) |}).
Proof.
  revert s. induction rts as [|rt rts IH]; intros s Hrts; simpl.
  - rewrite app_nil_r. by destruct s.
  - apply Forall_cons in Hrts as [Hrt Hrts].
    rewrite remove_interest_once by done.
    rewrite IH by done. simpl. by rewrite <- app_assoc.
Qed.

Lemma delete_interest_again (rts : list Runtime) (d : Db) :
  foldl (λ d _, delete_interest user_id movie_id d)
    (delete_interest user_id movie_id d) rts
  = delete_interest user_id movie_id d.
Proof.
  induction rts as [|rt rts IH]; simpl; [done|].
  unfold delete_interest at 2. simpl. rewrite delete_delete_eq. apply IH.
Qed.
End interest.

Lemma Db_eq (d1 d2 : Db) :
  movies_table d1 = movies_table d2 →
  interests_table d1 = interests_table d2 →
  d1 = d2.
Proof. destruct d1, d2; simpl; by intros -> ->. Qed.

Lemma stored_under_insert (k : pystr * pystr) (v : Z)
    (t : gmap (pystr * pystr) Z) :
  stored_under k (<[k := v]> t) = {[ k := v ]}.
Proof.
  apply map_eq. intros k'. unfold stored_under.
  destruct (decide (k' = k)) as [->|Hne].
  - rewrite lookup_singleton_eq. apply map_lookup_filter_Some.
    by rewrite lookup_insert_eq.
  - rewrite lookup_singleton_ne by done.
    apply map_lookup_filter_None. right. by intros.
Qed.

(** C3, as stated, fails: a repeated [add_interest] is not a no-op.
    Called at clock reading 100 and again at 200 for the same pair, both
    calls answer 201, but the Interest stored after the repeat carries
    [createdAt = 200] where the single call left [createdAt = 100]. *)
Lemma add_interest_repeat_rewrites_createdAt :
  let ev := path_event "m1" "u2" in
  let once :=
    add_interest.lambda_handler ev (quiet_runtime 100 (py "id-1"))
      one_movie_store in
  let twice :=
    add_interest.lambda_handler ev (quiet_runtime 200 (py "id-1")) once.2 in
  response.statusCode once.1 = 201
  ∧ response.statusCode twice.1 = 201
  ∧ interests_table (db once.2) !! (py "u2", py "m1") = Some 100
  ∧ interests_table (db twice.2) !! (py "u2", py "m1") = Some 200
  ∧ db twice.2 ≠ db once.2.
Proof.
  intros ev once twice.
  assert (H1 : interests_table (db once.2) !! (py "u2", py "m1") = Some 100)
    by (vm_compute; reflexivity).
  assert (H2 : interests_table (db twice.2) !! (py "u2", py "m1") = Some 200)
    by (vm_compute; reflexivity).
  split; [vm_compute; reflexivity|].
  split; [vm_compute; reflexivity|].
  split; [exact H1|]. split; [exact H2|].
  intros E. rewrite E, H1 in H2. discriminate.
Qed.

(** C3, amended. For a stored movie and an available store, [N >= 1]
    calls of [add_interest] for one pair all answer 201 with the record
    they wrote; afterwards exactly one Interest is stored for the pair,
    the other interests and the movies are as before, and the stored
    record is the one written by the last call: the tables are those a
    single call at the last call's clock reading leaves, [createdAt]
    being that reading. *)
Theorem add_interest_repeated (event : Event) (movie_id user_id : pystr)
    (rts : list Runtime) (rt : Runtime) (s : State) :
  movieId event = Some movie_id →
  sub event = Some user_id →
  is_Some (movies_table (db s) !! movie_id) →
  Forall store_available (rts ++ [rt]) →
  let r := invoke_all (add_interest.lambda_handler event) (rts ++ [rt]) s in
  r.1 = (λ rt', response.success_response 201
                  (response.InterestBody
                     (interest_item_at movie_id user_id rt')))
        <$> (rts ++ [rt])
  ∧ interests_table (db r.2)
    = <[(user_id, movie_id) := now rt]> (interests_table (db s))
  ∧ size (stored_under (user_id, movie_id) (interests_table (db r.2))) = 1%nat
  ∧ movies_table (db r.2) = movies_table (db s)
  ∧ db r.2 = db (add_interest.lambda_handler event rt s).2.
Proof.
  intros Hm Hu Hs Hrts r. subst r.
  rewrite (add_interest_all event movie_id user_id Hm Hu) by done.
  assert (Hrt : store_available rt).
  { apply Forall_app in Hrts as [_ Hrt]. by apply Forall_inv in Hrt. }
  rewrite (add_interest_once event movie_id user_id Hm Hu) by done.
  simpl. rewrite foldl_app. simpl.
  unfold Interest.key. simpl.
  rewrite put_interests_overwritten, put_interests_movies.
  split; [done|]. split; [done|].
  split; [by rewrite stored_under_insert, map_size_singleton|].
  split; [done|].
  apply Db_eq; simpl; [by rewrite put_interests_movies|].
  unfold Interest.key. simpl. by rewrite put_interests_overwritten.
Qed.

Lemma add_interest_repeated_witness :
  let rt1 := quiet_runtime 100 (py "id-1") in
  let rt2 := quiet_runtime 200 (py "id-1") in
  let r := invoke_all (add_interest.lambda_handler (path_event "m1" "u2"))
             [rt1; rt1; rt2] one_movie_store in
  response.statusCode <$> r.1 = [201; 201; 201]
  ∧ interests_table (db r.2)
    = <[(py "u2", py "m1") := 200]> (interests_table (db one_movie_store)).
Proof.
  intros rt1 rt2 r.
  assert (Hav : Forall store_available ([rt1; rt1] ++ [rt2])).
  { repeat constructor; by intros ? ?. }
  destruct (add_interest_repeated (path_event "m1" "u2") (py "m1") (py "u2")
              [rt1; rt1] rt2 one_movie_store eq_refl eq_refl
              (ex_intro _ _ eq_refl) Hav) as (H1 & H2 & _).
  split; [|exact H2].
  change (response.statusCode
            <$> (invoke_all (add_interest.lambda_handler (path_event "m1" "u2"))
                   ([rt1; rt1] ++ [rt2]) one_movie_store).1 = [201; 201; 201]).
  rewrite H1. reflexivity.
Defined.

(** C4. [add_interest] for an identifier under which no movie is stored
    changes no table and makes one store call only, the [get_item] on
    the Movies table, so that the write of the Interest is never
    reached; when that call is answered, the response is 404
    [NotFoundError]. *)
Theorem add_interest_not_found (event : Event) (rt : Runtime) (s : State)
    (movie_id user_id : pystr) :
  movieId event = Some movie_id →
  sub event = Some user_id →
  movies_table (db s) !! movie_id = None →
  let r := add_interest.lambda_handler event rt s in
  db r.2 = db s
  ∧ calls r.2 = calls s ++ [GetItem movie_id]
  ∧ (fault rt (calls s) (GetItem movie_id) = None →
     r.1 = response.error_response 404 "Movie not found" NotFoundError).
Proof.
  intros Hm Hu Hs. name_run r Hr.
  unfold add_interest.lambda_handler, try_except_Exception in Hr.
  rewrite Hm, Hu in Hr.
  unfold try_except_ClientError, dynamodb_client.movies_get_item,
    store_call, get_item in Hr; simpl in Hr.
  rewrite Hs in Hr. simpl in Hr.
  destruct (fault rt (calls s) (GetItem movie_id)) as [[e|w]|];
    simpl in Hr; subst r; simpl; done.
Qed.

Lemma add_interest_not_found_witness :
  let r := add_interest.lambda_handler (path_event "m2" "u2")
             (quiet_runtime 100 (py "id-1")) one_movie_store in
  r.1 = response.error_response 404 "Movie not found" NotFoundError
  ∧ db r.2 = db one_movie_store
  ∧ calls r.2 = [GetItem (py "m2")].
Proof.
  destruct (add_interest_not_found (path_event "m2" "u2")
              (quiet_runtime 100 (py "id-1")) one_movie_store
              (py "m2") (py "u2") eq_refl eq_refl eq_refl) as (H1 & H2 & H3).
  split; [exact (H3 eq_refl)|]. split; [exact H1|exact H2].
Defined.

(** C5. With the store available, [N >= 1] calls of [remove_interest]
    for one pair all answer 204, whether or not an Interest was stored
    for the pair and whether or not the movie is stored; afterwards no
    Interest is stored for the pair, the other interests and the movies
    are as before, and the only store calls made are the [delete_item]
    calls: the Movies table is never read. *)
Theorem remove_interest_repeated (event : Event) (movie_id user_id : pystr)
    (rt : Runtime) (rts : list Runtime) (s : State) :
  movieId event = Some movie_id →
  sub event = Some user_id →
  Forall store_available (rt :: rts) →
  let r := invoke_all (remove_interest.lambda_handler event) (rt :: rts) s in
  r.1 = (λ _, response.no_content_response) <$> (rt :: rts)
  ∧ interests_table (db r.2) !! (user_id, movie_id) = None
  ∧ interests_table (db r.2)
    = delete (user_id, movie_id) (interests_table (db s))
  ∧ movies_table (db r.2) = movies_table (db s)
  ∧ calls r.2 = calls s ++ ((λ _, DeleteItem user_id movie_id) <$> (rt :: rts)).
Proof.
  intros Hm Hu Hrts r. subst r.
  rewrite (remove_interest_all event movie_id user_id Hm Hu) by done.
  cbn [fst snd db calls foldl]. rewrite delete_interest_again. simpl.
  rewrite lookup_delete_eq. done.
Qed.

Lemma remove_interest_repeated_witness :
  let rt := quiet_runtime 100 (py "id-1") in
  let r := invoke_all (remove_interest.lambda_handler (path_event "m9" "u1"))
             [rt; rt] orphan_store in
  response.statusCode <$> r.1 = [204; 204]
  ∧ interests_table (db r.2) !! (py "u1", py "m9") = None
  ∧ calls r.2 = [DeleteItem (py "u1") (py "m9"); DeleteItem (py "u1") (py "m9")].
Proof.
  intros rt r.
  assert (Hav : Forall store_available [rt; rt]).
  { repeat constructor; by intros ? ?. }
  destruct (remove_interest_repeated (path_event "m9" "u1") (py "m9") (py "u1")
              rt [rt] orphan_store eq_refl eq_refl Hav) as (H1 & H2 & _ & _ & H5).
  split; [|split; [exact H2|exact H5]].
  change (response.statusCode
            <$> (invoke_all (remove_interest.lambda_handler (path_event "m9" "u1"))
                   (rt :: [rt]) orphan_store).1 = [204; 204]).
  rewrite H1. reflexivity.
Defined.

(** ** The status round trip *)

Lemma update_status_once (event : Event) (rt : Runtime) (s : State)
    (movie_id st : pystr) (b : json) (a : Movie.attrs) :
  movieId event = Some movie_id →
  json_loads_body (body event) = inr (Some b) →
  dict_get (py "status") b = Some (JStr st) →
  st ∈ validation.valid_statuses →
  movies_table (db s) !! movie_id = Some a →
  fault rt (calls s) (UpdateItem movie_id st (now rt)) = None →
  update_movie_status.lambda_handler event rt s
  = (response.success_response 200
       (response.MovieBody (movie_item (movie_id, set_status st (now rt) a))),
     {| db := {| movies_table :=
                   <[movie_id := set_status st (now rt) a]>
                     (movies_table (db s));
                 interests_table := interests_table (db s) |};
        calls := calls s ++ [UpdateItem movie_id st (now rt)] |}).
Proof.
  intros Hm Hb Hst Hvalid Ha Hf.
  unfold update_movie_status.lambda_handler, try_except_Exception.
  rewrite Hm, Hb, Hst. unfold validation.validate_movie_status.
  rewrite bool_decide_true by done.
  unfold try_except_ClientError, dynamodb_client.movies_update_item,
    store_call.
  rewrite Hf, Ha. done.
Qed.

(** C6, as stated, fails for a movie that is [downloaded] to begin with:
    [update_status(id, "downloaded")] then [update_status(id, "wishlist")]
    both answer 200 and leave it [wishlist], which is not the status it
    had before the two calls. *)
Lemma update_status_round_trip_from_downloaded :
  let r1 := update_movie_status.lambda_handler (status_event "m1" "downloaded")
              (quiet_runtime 2000 (py "id-1")) downloaded_store in
  let r2 := update_movie_status.lambda_handler (status_event "m1" "wishlist")
              (quiet_runtime 3000 (py "id-1")) r1.2 in
  status_of (py "m1") downloaded_store = Some (py "downloaded")
  ∧ response.statusCode r1.1 = 200
  ∧ response.statusCode r2.1 = 200
  ∧ status_of (py "m1") r2.2 = Some (py "wishlist")
  ∧ status_of (py "m1") r2.2 ≠ status_of (py "m1") downloaded_store.
Proof.
  intros r1 r2.
  assert (H0 : status_of (py "m1") downloaded_store = Some (py "downloaded"))
    by (vm_compute; reflexivity).
  assert (H2 : status_of (py "m1") r2.2 = Some (py "wishlist"))
    by (vm_compute; reflexivity).
  split; [exact H0|].
  split; [vm_compute; reflexivity|].
  split; [vm_compute; reflexivity|].
  split; [exact H2|].
  rewrite H0, H2. vm_compute. discriminate.
Qed.

(** C6, amended. For a stored movie and an available store,
    [update_status(id, "downloaded")] followed by
    [update_status(id, "wishlist")] answers 200 twice with the updated
    movie and leaves the movie [wishlist]: its original status when it
    was [wishlist] before the calls. Each call sets [updatedAt] to its own
    clock reading, also when the status it writes is the one already
    stored; so with clock readings that do not decrease, starting from
    the stored [updatedAt], [updatedAt] does not decrease across the two
    calls. *)
Theorem update_status_round_trip (ev1 ev2 : Event) (rt1 rt2 : Runtime)
    (s : State) (movie_id : pystr) (b1 b2 : json) (a : Movie.attrs) :
  movieId ev1 = Some movie_id →
  movieId ev2 = Some movie_id →
  json_loads_body (body ev1) = inr (Some b1) →
  dict_get (py "status") b1 = Some (JStr (py "downloaded")) →
  json_loads_body (body ev2) = inr (Some b2) →
  dict_get (py "status") b2 = Some (JStr (py "wishlist")) →
  movies_table (db s) !! movie_id = Some a →
  store_available rt1 →
  store_available rt2 →
  let r1 := update_movie_status.lambda_handler ev1 rt1 s in
  let r2 := update_movie_status.lambda_handler ev2 rt2 r1.2 in
  ∃ a1 a2,
    movies_table (db r1.2) !! movie_id = Some a1
    ∧ movies_table (db r2.2) !! movie_id = Some a2
    ∧ r1.1 = response.success_response 200
               (response.MovieBody (movie_item (movie_id, a1)))
    ∧ r2.1 = response.success_response 200
               (response.MovieBody (movie_item (movie_id, a2)))
    ∧ Movie.status a1 = py "downloaded"
    ∧ Movie.status a2 = py "wishlist"
    ∧ (Movie.status a = py "wishlist" → Movie.status a2 = Movie.status a)
    ∧ Movie.updatedAt a1 = now rt1
    ∧ Movie.updatedAt a2 = now rt2
    ∧ (Movie.updatedAt a ≤ now rt1 → now rt1 ≤ now rt2 →
       Movie.updatedAt a ≤ Movie.updatedAt a1
       ∧ Movie.updatedAt a1 ≤ Movie.updatedAt a2).
Proof.
  intros Hm1 Hm2 Hb1 Hs1 Hb2 Hs2 Ha Hrt1 Hrt2 r1 r2.
  assert (Hr1 : r1 = update_movie_status.lambda_handler ev1 rt1 s) by done.
  rewrite (update_status_once ev1 rt1 s movie_id (py "downloaded") b1 a)
    in Hr1 by first [done | unfold validation.valid_statuses; set_solver
                    | apply Hrt1].
  assert (Hr2 : r2 = update_movie_status.lambda_handler ev2 rt2 r1.2) by done.
  rewrite Hr1 in Hr2.
  rewrite (update_status_once ev2 rt2 _ movie_id (py "wishlist") b2
             (set_status (py "downloaded") (now rt1) a))
    in Hr2 by first [done | unfold validation.valid_statuses; set_solver
                    | simpl; by rewrite lookup_insert_eq | apply Hrt2].
  clearbody r1 r2. subst r1 r2. simpl.
  eexists _, _. rewrite !lookup_insert_eq.
  repeat split; try done; simpl; lia.
Qed.

Lemma update_status_round_trip_witness :
  let r1 := update_movie_status.lambda_handler (status_event "m1" "downloaded")
              (quiet_runtime 2000 (py "id-1")) one_movie_store in
  let r2 := update_movie_status.lambda_handler (status_event "m1" "wishlist")
              (quiet_runtime 3000 (py "id-1")) r1.2 in
  status_of (py "m1") r2.2 = status_of (py "m1") one_movie_store
  ∧ updatedAt_of (py "m1") r1.2 = Some 2000
  ∧ updatedAt_of (py "m1") r2.2 = Some 3000.
Proof.
  intros r1 r2.
  destruct (update_status_round_trip
              (status_event "m1" "downloaded") (status_event "m1" "wishlist")
              (quiet_runtime 2000 (py "id-1")) (quiet_runtime 3000 (py "id-1"))
              one_movie_store (py "m1") _ _ _
              eq_refl eq_refl eq_refl eq_refl eq_refl eq_refl eq_refl
              (λ _ _, eq_refl) (λ _ _, eq_refl))
    as (a1 & a2 & H1 & H2 & _ & _ & _ & _ & H7 & H8 & H9 & _).
  unfold status_of, updatedAt_of. fold r1 in H1. fold r1 r2 in H2.
  rewrite H1, H2. simpl. rewrite (H7 eq_refl), H8, H9. done.
Defined.

(** ** Creating a movie *)

Section creation.
Variables (event : Event) (rt : Runtime) (s : State).
Variables (b : json) (t user_id : pystr).
Hypothesis Hbody : json_loads_body (body event) = inr (Some b).
Hypothesis Htitle : dict_get (py "title") b = Some (JStr t).
Hypothesis Hvalid : validation.validate_movie_title (JStr t) = (true, None).
Hypothesis Huser : sub event = Some user_id.

Local Abbreviation new_movie := (new_movie rt t user_id).
Local Abbreviation creator_interest := (creator_interest rt user_id).

(** The paths through the two writes. *)
Lemma create_movie_run :
  create_movie.lambda_handler event rt s
  = let s1 d := {| db := d; calls := calls s ++ [PutMovie new_movie] |} in
    let s2 d := {| db := d;
                   calls := (calls s ++ [PutMovie new_movie])
                            ++ [PutInterest creator_interest] |} in
    match fault rt (calls s) (PutMovie new_movie) with
    | Some (ClientError e) => (database_error e, s1 (db s))
    | Some (Exception _) => (internal_server_error, s1 (db s))
    | None =>
        match fault rt (calls s ++ [PutMovie new_movie])
                (PutInterest creator_interest) with
        | Some (ClientError e) =>
            (database_error e, s2 (put_movie new_movie (db s)))
        | Some (Exception _) =>
            (internal_server_error, s2 (put_movie new_movie (db s)))
        | None =>
            (response.success_response 201 (response.MovieBody new_movie),
             s2 (put_interest creator_interest
                   (put_movie new_movie (db s))))
        end
    end.
Proof.
  unfold create_movie.lambda_handler, try_except_Exception.
  rewrite Hbody, Htitle, Hvalid, Huser.
  unfold try_except_ClientError, bind, dynamodb_client.movies_put_item,
    dynamodb_client.interests_put_item, store_call; simpl.
  fold new_movie creator_interest.
  destruct (fault rt (calls s) _) as [[e|w]|]; simpl; try done.
  destruct (fault rt _ _) as [[e|w]|]; simpl; done.
Qed.
End creation.




(** ** The listing *)

Section sorting.
Implicit Types (x : EnrichedMovie.t) (l : list EnrichedMovie.t).

Lemma insert_desc_perm x l : get_movies.insert_desc x l ≡ₚ x :: l.
Proof.
  induction l as [|y l IH]; simpl; [done|].
  destruct (_ <? _); [|done].
  rewrite IH. apply Permutation_swap.
Qed.

Lemma sort_reverse_perm l : get_movies.sort_reverse l ≡ₚ l.
Proof.
  induction l as [|x l IH]; simpl; [done|].
  rewrite insert_desc_perm. by rewrite IH.
Qed.



End sorting.

Section listing.
Variable rt : Runtime.

Lemma enrich_run (mv : Movie.t) (s : State) :
  let s' := {| db := db s; calls := calls s ++ [Query (Movie.movieId mv)] |} in
  let mv' :=
    get_movies.set_createdBy
      (get_movies.get_username_from_user_id rt
         (default [] (Movie.createdBy (Movie.attributes mv)))) mv in
  get_movies.enrich rt mv s
  = match fault rt (calls s) (Query (Movie.movieId mv)) with
    | Some (ClientError e) =>
        (Ok {| EnrichedMovie.movie := mv';
               EnrichedMovie.interestedUsers := [] |}, s')
    | Some (Exception w) => (Raise (Exception w), s')
    | None =>
        (Ok {| EnrichedMovie.movie := mv';
               EnrichedMovie.interestedUsers :=
                 (λ i, get_movies.get_username_from_user_id rt
                         (Interest.userId i))
                 <$> query_items (Movie.movieId mv) (db s) |}, s')
    end.
Proof.
  unfold get_movies.enrich, recover_ClientError, bind,
    dynamodb_client.interests_query, store_call; simpl.
  destruct (fault rt _ _) as [[e|w]|]; done.
Qed.


Lemma enrich_db (mv : Movie.t) (s : State) :
  db (get_movies.enrich rt mv s).2 = db s.
Proof.
  rewrite enrich_run. simpl. by destruct (fault rt _ _) as [[e|w]|].
Qed.

(** The loop leaves the tables alone, and when it completes it has
    produced one element per scanned movie, in the order scanned. *)
Lemma for_each_enrich_db (ms : list Movie.t) (s : State) :
  db (for_each (get_movies.enrich rt) ms s).2 = db s.
Proof.
  revert s. induction ms as [|mv ms IH]; intros s; simpl; [done|].
  unfold bind at 1. pose proof (enrich_db mv s) as Hd.
  destruct (get_movies.enrich rt mv s) as [[x|e] s1]; simpl in *; [|done].
  unfold bind. specialize (IH s1).
  destruct (for_each _ ms s1) as [[l|e] s2]; simpl in *; congruence.
Qed.


(** A query refused with a [ClientError] does not stop the loop. *)
Lemma for_each_enrich_completes (ms : list Movie.t) (s : State) :
  only_client_errors rt →
  ∃ l s', for_each (get_movies.enrich rt) ms s = (Ok l, s').
Proof.
  intros Hrt. revert s. induction ms as [|mv ms IH]; intros s; simpl.
  - by eexists _, _.
  - unfold bind at 1. rewrite enrich_run. simpl.
    destruct (fault rt _ _) as [[e|w]|] eqn:E.
    + unfold bind. edestruct IH as (l & s' & ->). by eexists _, _.
    + apply Hrt in E as [? [=]].
    + unfold bind. edestruct IH as (l & s' & ->). by eexists _, _.
Qed.

(** The movie whose query is always refused is listed with no users. *)
Lemma for_each_enrich_degraded (ms : list Movie.t) (s s' : State)
    (l : list EnrichedMovie.t) (mv : Movie.t) (e : service_error) :
  (∀ tr, fault rt tr (Query (Movie.movieId mv)) = Some (ClientError e)) →
  for_each (get_movies.enrich rt) ms s = (Ok l, s') →
  mv ∈ ms →
  ∃ x, x ∈ l ∧ listed_id x = Movie.movieId mv
       ∧ EnrichedMovie.interestedUsers x = [].
Proof.
  intros Hq. revert s l. induction ms as [|m0 ms IH]; intros s l; simpl.
  - intros _ H. by apply elem_of_nil in H.
  - unfold bind at 1.
    destruct (get_movies.enrich rt m0 s) as [[x|e0] s1] eqn:E; [|done].
    unfold bind.
    destruct (for_each _ ms s1) as [[l'|e0] s2] eqn:E'; [|done].
    intros [= <- <-] [->|Hin]%elem_of_cons.
    + rewrite enrich_run, Hq in E. simpl in E.
      injection E as <- _. eexists. split; [apply list_elem_of_here|done].
    + destruct (IH _ _ E' Hin) as (y & Hy & Hid & Hu).
      exists y. split; [by apply list_elem_of_further|done].
Qed.

Lemma get_movies_run (event : Event) (s : State) :
  let s1 := {| db := db s; calls := calls s ++ [Scan] |} in
  get_movies.lambda_handler event rt s
  = match fault rt (calls s) Scan with
    | Some (ClientError e) => (database_error e, s1)
    | Some (Exception _) => (internal_server_error, s1)
    | None =>
        match for_each (get_movies.enrich rt) (scan_items (db s)) s1 with
        | (Ok l, s') =>
            (response.success_response 200
               (response.MoviesBody (get_movies.sort_reverse l)), s')
        | (Raise _, s') => (internal_server_error, s')
        end
    end.
Proof.
  unfold get_movies.lambda_handler, try_except_Exception,
    try_except_ClientError, dynamodb_client.movies_scan, store_call; simpl.
  destruct (fault rt _ _) as [[e|w]|]; try done.
  unfold bind.
  destruct (for_each _ _ _) as [[l|e] s']; done.
Qed.
End listing.

Lemma scan_items_ids (d : Db) :
  Movie.movieId <$> scan_items d = (map_to_list (movies_table d)).*1.
Proof. unfold scan_items. by rewrite <- list_fmap_compose. Qed.




(** C10, as stated, fails for a query that fails otherwise than with a
    [ClientError]: the loop of [get_movies] catches [ClientError] only,
    so when the interests query of the stored movie [m1] raises another
    exception the whole listing is answered 500 [ServerError], whereas
    the claim has that movie listed in a successful result. *)
Lemma get_movies_query_exception_fails_listing :
  let rt := query_raises (py "m1") in
  let r := get_movies.lambda_handler (path_event "" "") rt
             three_movies_store in
  is_Some (movies_table (db three_movies_store) !! py "m1")
  ∧ (∀ tr, fault rt tr (Query (py "m1"))
           = Some (Exception "EndpointConnectionError"))
  ∧ (∀ tr c, c ≠ Query (py "m1") → fault rt tr c = None)
  ∧ r.1 = response.error_response 500 "Internal server error" ServerError
  ∧ response.statusCode r.1 ≠ 200.
Proof.
  intros rt r.
  assert (H : r.1 = response.error_response 500 "Internal server error"
                      ServerError) by (vm_compute; reflexivity).
  split; [vm_compute; by eexists|].
  split; [intros tr; vm_compute; reflexivity|]. split.
  - intros tr c Hc. unfold rt, query_raises. cbn [fault].
    destruct c; try reflexivity.
    rewrite bool_decide_false; [reflexivity|].
    intros Heq. apply Hc. by rewrite Heq.
  - split; [exact H|]. rewrite H. discriminate.
Qed.

(** A query that raises another exception than a [ClientError] stops the
    loop. *)
Lemma for_each_enrich_raises (rt : Runtime) (ms : list Movie.t) (s : State)
    (mv : Movie.t) (w : string) :
  (∀ tr, fault rt tr (Query (Movie.movieId mv)) = Some (Exception w)) →
  mv ∈ ms →
  ∃ e s', for_each (get_movies.enrich rt) ms s = (Raise e, s').
Proof.
  intros Hq. revert s. induction ms as [|m0 ms IH]; intros s Hin.
  - by apply elem_of_nil in Hin.
  - simpl. unfold bind at 1.
    destruct (get_movies.enrich rt m0 s) as [[x|e0] s1] eqn:E;
      [|by eexists _, _].
    apply elem_of_cons in Hin as [->|Hin].
    + rewrite enrich_run, Hq in E. done.
    + unfold bind. destruct (IH s1 Hin) as (e & s' & ->). by eexists _, _.
Qed.

(** C10, amended. For a stored movie and an answered scan: when the
    interests query of that movie is refused with a [ClientError] (the
    service refusing calls with [ClientError]s only), [get_movies] still
    answers 200 and lists that movie, with [interestedUsers] empty; when
    that query raises any other exception, the whole listing is answered
    500 [ServerError]. *)
Theorem get_movies_query_failure (event : Event) (rt : Runtime) (s : State)
    (movie_id : pystr) (a : Movie.attrs) :
  movies_table (db s) !! movie_id = Some a →
  fault rt (calls s) Scan = None →
  let r := get_movies.lambda_handler event rt s in
  (∀ e,
     only_client_errors rt →
     (∀ tr, fault rt tr (Query movie_id) = Some (ClientError e)) →
     response.statusCode r.1 = 200
     ∧ ∃ l x, response.body r.1 = response.MoviesBody l
              ∧ x ∈ l
              ∧ listed_id x = movie_id
              ∧ EnrichedMovie.interestedUsers x = [])
  ∧ (∀ w,
       (∀ tr, fault rt tr (Query movie_id) = Some (Exception w)) →
       r.1 = response.error_response 500 "Internal server error" ServerError).
Proof.
  intros Ha Hscan. name_run r Hr.
  rewrite get_movies_run in Hr. simpl in Hr. rewrite Hscan in Hr.
  set (s1 := {| db := db s; calls := calls s ++ [Scan] |}) in *.
  assert (Hin : movie_item (movie_id, a) ∈ scan_items (db s)).
  { unfold scan_items. apply list_elem_of_fmap. exists (movie_id, a).
    split; [done|]. by apply elem_of_map_to_list. }
  split.
  - intros e Hrt Hq.
    destruct (for_each_enrich_completes rt (scan_items (db s)) s1 Hrt)
      as (l & s' & E).
    rewrite E in Hr. subst r. simpl. split; [done|].
    destruct (for_each_enrich_degraded rt (scan_items (db s)) s1 s' l
                (movie_item (movie_id, a)) e Hq E Hin) as (x & Hx & Hid & Hu).
    exists (get_movies.sort_reverse l), x.
    split; [done|]. split; [by rewrite sort_reverse_perm|done].
  - intros w Hq.
    destruct (for_each_enrich_raises rt (scan_items (db s)) s1
                (movie_item (movie_id, a)) w Hq Hin) as (e & s' & E).
    rewrite E in Hr. by subst r.
Qed.

Lemma get_movies_query_failure_witness :
  let r := get_movies.lambda_handler (path_event "" "")
             (query_refused (py "m1")) three_movies_store in
  response.statusCode r.1 = 200
  ∧ ∃ l x, response.body r.1 = response.MoviesBody l
           ∧ x ∈ l
           ∧ listed_id x = py "m1"
           ∧ EnrichedMovie.interestedUsers x = [].
Proof.
  assert (Hm : movies_table (db three_movies_store) !! py "m1"
               = Some (wishlist_movie "Alien" 1000))
    by (vm_compute; reflexivity).
  apply (proj1 (get_movies_query_failure (path_event "" "")
                  (query_refused (py "m1")) three_movies_store (py "m1")
                  (wishlist_movie "Alien" 1000) Hm eq_refl) throttled).
  - intros tr c e. simpl. destruct c; try discriminate.
    case_bool_decide; [|discriminate]. intros [= <-]. by eexists.
  - intros tr. vm_compute. reflexivity.
Defined.

(** * Further properties of the code *)

(** ** Stripping, continued *)

Lemma lstrip_head (s r : pystr) (c : codepoint) :
  lstrip s = c :: r → is_space c = false.
Proof.
  induction s as [|a s IH]; simpl; [done|].
  destruct (is_space a) eqn:E; [done|]. by intros [= <- <-].
Qed.

Lemma lstrip_nonspace (s : pystr) (c : codepoint) :
  is_space c = false → lstrip (c :: s) = c :: s.
Proof. intros H. simpl. by rewrite H. Qed.

Lemma lstrip_lstrip (s : pystr) : lstrip (lstrip s) = lstrip s.
Proof.
  destruct (lstrip s) as [|c r] eqn:E; [done|].
  apply lstrip_nonspace. by apply lstrip_head in E.
Qed.

Lemma lstrip_spaces_app (ws s : pystr) :
  forallb is_space ws = true → lstrip (ws ++ s) = lstrip s.
Proof.
  induction ws as [|a ws IH]; simpl; [done|].
  intros [Ha Hws]%andb_prop. rewrite Ha. auto.
Qed.

Lemma lstrip_app_keep (s x : pystr) :
  lstrip s ≠ [] → lstrip (s ++ x) = lstrip s ++ x.
Proof.
  induction s as [|a s IH]; simpl; [done|].
  destruct (is_space a); [done|]. done.
Qed.

Lemma lstrip_empty_spaces (s : pystr) :
  lstrip s = [] → forallb is_space s = true.
Proof.
  induction s as [|a s IH]; simpl; [done|].
  destruct (is_space a); [done|]. done.
Qed.

Lemma rstrip_spaces_app (s ws : pystr) :
  forallb is_space ws = true → rstrip (s ++ ws) = rstrip s.
Proof.
  intros H. unfold rstrip. rewrite rev_app_distr.
  rewrite lstrip_spaces_app; [done|].
  rewrite forallb_forall in *. intros c Hc. apply H. by apply in_rev.
Qed.

Lemma rstrip_rstrip (s : pystr) : rstrip (rstrip s) = rstrip s.
Proof. unfold rstrip. by rewrite rev_involutive, lstrip_lstrip. Qed.

Lemma rstrip_cons_nonspace (s : pystr) (c : codepoint) :
  is_space c = false → rstrip (c :: s) = c :: rstrip s.
Proof.
  intros H. unfold rstrip. simpl.
  destruct (lstrip (rev s)) as [|a r] eqn:E.
  - rewrite lstrip_spaces_app by (by apply lstrip_empty_spaces).
    simpl. by rewrite H.
  - rewrite lstrip_app_keep by (by rewrite E). rewrite E.
    by rewrite rev_app_distr.
Qed.

(** Stripping white space around a string changes nothing of its strip. *)
Lemma strip_padded (ws s ws' : pystr) :
  forallb is_space ws = true → forallb is_space ws' = true →
  strip (ws ++ s ++ ws') = strip s.
Proof.
  intros H H'. unfold strip. rewrite lstrip_spaces_app by done.
  destruct (lstrip s) as [|c r] eqn:E.
  - rewrite lstrip_spaces_app by (by apply lstrip_empty_spaces).
    by rewrite (lstrip_all_space ws').
  - rewrite lstrip_app_keep by (by rewrite E). rewrite E.
    by apply rstrip_spaces_app.
Qed.

Lemma strip_strip (s : pystr) : strip (strip s) = strip s.
Proof.
  unfold strip. destruct (lstrip s) as [|c r] eqn:E; [done|].
  apply lstrip_head in E.
  rewrite rstrip_cons_nonspace by done.
  rewrite lstrip_nonspace by done.
  rewrite rstrip_cons_nonspace by done. by rewrite rstrip_rstrip.
Qed.

(** ** The validators *)

(** X1. [validate_movie_title] accepts exactly the strings whose
    stripped length is between 1 and 500, and white space around a title
    never changes its verdict. *)
Theorem validate_movie_title_accepts (title : json) :
  ((validation.validate_movie_title title).1 = true
   ↔ ∃ t, title = JStr t ∧ 0 < len (strip t) ≤ 500)
  ∧ (∀ ws t ws', title = JStr t →
       forallb is_space ws = true → forallb is_space ws' = true →
       validation.validate_movie_title (JStr (ws ++ t ++ ws'))
       = validation.validate_movie_title title).
Proof.
  split.
  - destruct title as [| | |t| |]; simpl;
      try (split; [done|by intros (t' & [=] & _)]).
    unfold len. destruct (strip t) as [|c r] eqn:E; simpl.
    + split; [done|]. intros (t' & [= <-] & H). rewrite E in H. simpl in H. lia.
    + destruct (500 <? _) eqn:E'; simpl.
      * apply Z.ltb_lt in E'. split; [done|].
        intros (t' & [= <-] & H). rewrite E in H. simpl in H. lia.
      * apply Z.ltb_ge in E'. split; [|done]. intros _. exists t.
        rewrite E. simpl. split; [done|lia].
  - intros ws t ws' -> H H'. unfold validation.validate_movie_title.
    by rewrite strip_padded.
Qed.

Lemma validate_movie_title_accepts_witness :
  validation.validate_movie_title (JStr (py "  Heat " ++ [160%N]))
  = validation.validate_movie_title (JStr (py "Heat")).
Proof.
  exact (proj2 (validate_movie_title_accepts (JStr (py "Heat")))
           (py "  ") (py "Heat") (py " " ++ [160%N]) eq_refl eq_refl eq_refl).
Defined.

(** X2. [validate_movie_status] accepts exactly the two strings
    ["wishlist"] and ["downloaded"], as written: a status in another case
    is rejected. *)
Theorem validate_movie_status_accepts (status : json) :
  ((validation.validate_movie_status status).1 = true
   ↔ status = JStr (py "wishlist") ∨ status = JStr (py "downloaded"))
  ∧ (validation.validate_movie_status (JStr (py "Wishlist"))).1 = false.
Proof.
  split; [|by vm_compute].
  destruct status as [| | |st| |]; simpl;
    try (split; [done|by intros [[=]|[=]]]).
  unfold validation.valid_statuses. case_bool_decide as H; simpl.
  - split; [|done]. intros _.
    apply elem_of_cons in H as [->|H]; [by left|].
    apply elem_of_cons in H as [->|H]; [by right|].
    by apply elem_of_nil in H.
  - split; [done|]. intros [[= ->]|[= ->]]; destruct H; set_solver.
Qed.

Lemma count_hyphens_pos_nonblank (u : pystr) :
  0 < validation.count_hyphens u → strip u ≠ [].
Proof.
  intros H E. unfold strip, rstrip in E.
  assert (Hl : lstrip (rev (lstrip u)) = []).
  { apply (f_equal (@rev _)) in E. by rewrite rev_involutive in E. }
  apply lstrip_empty_spaces in Hl.
  assert (Hs : forallb is_space (lstrip u) = true).
  { rewrite forallb_forall in *. intros c Hc. apply Hl. by apply in_rev in Hc. }
  assert (Hall : ∀ s, forallb is_space (lstrip s) = true →
                      forallb is_space s = true).
  { induction s as [|a s IH]; simpl; [done|].
    destruct (is_space a) eqn:Ea; simpl; [done|].
    by rewrite Ea. }
  apply Hall in Hs. unfold validation.count_hyphens in H.
  assert (Hn : filter (λ c, c = 45%N) u = []).
  { clear -Hs. induction u as [|a u IH]; [done|].
    simpl in Hs. apply andb_prop in Hs as [Ha Hu].
    unfold filter. simpl. fold (filter (λ c : N, c = 45%N) u).
    case_decide as Hd; [by subst a|]. auto. }
  rewrite Hn in H. simpl in H. lia.
Qed.

(** X3. [validate_uuid] accepts exactly the strings of 36 characters
    that hold four hyphens; nothing else of the UUID format is checked,
    and the test for a blank string never decides for such a string. *)
Theorem validate_uuid_accepts (uuid_str : json) (field_name : string) :
  (validation.validate_uuid uuid_str field_name).1 = true
  ↔ ∃ u, uuid_str = JStr u ∧ len u = 36 ∧ validation.count_hyphens u = 4.
Proof.
  destruct uuid_str as [| | |u| |]; simpl;
    try (split; [done|by intros (u' & [=] & _)]).
  destruct (strip u) as [|c r] eqn:E; simpl.
  - split; [done|]. intros (u' & [= <-] & _ & H).
    by destruct (count_hyphens_pos_nonblank u); [lia|].
  - destruct (Z.eqb_spec (len u) 36) as [E1|E1];
      destruct (Z.eqb_spec (validation.count_hyphens u) 4) as [E2|E2]; simpl.
    + split; [|done]. intros _. by exists u.
    + split; [done|]. by intros (u' & [= <-] & _ & H).
    + split; [done|]. by intros (u' & [= <-] & H & _).
    + split; [done|]. by intros (u' & [= <-] & H & _).
Qed.

(** X4. Each of the three validators gives an error message exactly when
    it rejects, so that a handler that rejects always has a message to
    send. *)
Theorem validators_message_iff_rejected (v : json) (field_name : string) :
  let ok (r : bool * option string) := r.1 = true ↔ r.2 = None in
  ok (validation.validate_movie_title v)
  ∧ ok (validation.validate_movie_status v)
  ∧ ok (validation.validate_uuid v field_name).
Proof.
  simpl. split; [|split].
  - destruct v as [| | |t| |]; simpl; try done.
    destruct (strip t); [done|]. by destruct (_ <? _).
  - destruct v as [| | |t| |]; simpl; try done. by case_bool_decide.
  - destruct v as [| | |t| |]; simpl; try done.
    destruct (strip t); [done|]. by destruct (_ || _).
Qed.

(** ** The client wrapper *)

(** X5. [handle_client_error] answers with one of the statuses 400, 404,
    409, 500 and 503, and 503 exactly for the errors
    [is_throttling_error] recognises. *)
Theorem handle_client_error_statuses (e : service_error) :
  (dynamodb_client.handle_client_error e).1 ∈ [400; 404; 409; 500; 503]
  ∧ ((dynamodb_client.handle_client_error e).1 = 503
     ↔ dynamodb_client.is_throttling_error e = true).
Proof.
  unfold dynamodb_client.handle_client_error,
    dynamodb_client.is_throttling_error.
  cbv zeta.
  destruct (String.eqb_spec (Code e) "ConditionalCheckFailedException")
    as [->|_].
  { simpl. split; [rewrite !elem_of_cons; lia|by split]. }
  destruct (String.eqb_spec (Code e) "ResourceNotFoundException") as [->|_].
  { simpl. split; [rewrite !elem_of_cons; lia|by split]. }
  destruct (String.eqb_spec (Code e) "ProvisionedThroughputExceededException")
    as [_|_].
  { simpl. split; [rewrite !elem_of_cons; lia|by split]. }
  destruct (String.eqb _ _); [|destruct (String.eqb _ _)]; simpl;
    (split; [rewrite !elem_of_cons; lia|by split]).
Qed.

(** ** What each handler can do to the tables, whatever the service does *)

Lemma add_interest_outcomes (event : Event) (rt : Runtime) (s : State) :
  let r := add_interest.lambda_handler event rt s in
  (response.statusCode r.1 ≠ 201 ∧ db r.2 = db s)
  ∨ (∃ m u,
       movieId event = Some m ∧ sub event = Some u
       ∧ is_Some (movies_table (db s) !! m)
       ∧ r.1 = response.success_response 201
                 (response.InterestBody (interest_item_at m u rt))
       ∧ db r.2 = put_interest (interest_item_at m u rt) (db s)).
Proof.
  name_run r Hr.
  unfold add_interest.lambda_handler, try_except_Exception in Hr.
  destruct (movieId event) as [m|]; [|subst r; by left].
  destruct (sub event) as [u|]; [|subst r; by left].
  unfold try_except_ClientError, dynamodb_client.movies_get_item,
    dynamodb_client.interests_put_item, store_call, get_item in Hr;
    simpl in Hr.
  destruct (fault rt (calls s) (GetItem m)) as [[e|w]|]; simpl in Hr.
  - subst r. left. split; [apply database_error_not_success|done].
  - subst r. by left.
  - destruct (movies_table (db s) !! m) as [a|] eqn:Ha; simpl in Hr;
      [|subst r; by left].
    destruct (fault rt _ _) as [[e|w]|]; simpl in Hr.
    + subst r. left. split; [apply database_error_not_success|done].
    + subst r. by left.
    + subst r. right. exists m, u. rewrite Ha. done.
Qed.

Lemma remove_interest_outcomes (event : Event) (rt : Runtime) (s : State) :
  let r := remove_interest.lambda_handler event rt s in
  (response.statusCode r.1 ≠ 204 ∧ db r.2 = db s)
  ∨ (∃ m u,
       movieId event = Some m ∧ sub event = Some u
       ∧ r.1 = response.no_content_response
       ∧ db r.2 = delete_interest u m (db s)).
Proof.
  name_run r Hr.
  unfold remove_interest.lambda_handler, try_except_Exception in Hr.
  destruct (movieId event) as [m|]; [|subst r; by left].
  destruct (sub event) as [u|]; [|subst r; by left].
  unfold try_except_ClientError, dynamodb_client.interests_delete_item,
    store_call in Hr; simpl in Hr.
  destruct (fault rt _ _) as [[e|w]|]; simpl in Hr; subst r.
  - left. split; [apply database_error_not_success|done].
  - by left.
  - right. by exists m, u.
Qed.

Lemma on_update_error_not_success (e : service_error) :
  response.statusCode (update_movie_status.on_update_error e) ≠ 200.
Proof.
  unfold update_movie_status.on_update_error.
  destruct (String.eqb _ _); [done|apply database_error_not_success].
Qed.

Lemma update_status_outcomes (event : Event) (rt : Runtime) (s : State) :
  let r := update_movie_status.lambda_handler event rt s in
  (response.statusCode r.1 ≠ 200 ∧ db r.2 = db s)
  ∨ (∃ m st a,
       movieId event = Some m
       ∧ st ∈ validation.valid_statuses
       ∧ movies_table (db s) !! m = Some a
       ∧ r.1 = response.success_response 200
                 (response.MovieBody
                    (movie_item (m, set_status st (now rt) a)))
       ∧ db r.2 = {| movies_table :=
                       <[m := set_status st (now rt) a]> (movies_table (db s));
                     interests_table := interests_table (db s) |}).
Proof.
  name_run r Hr.
  unfold update_movie_status.lambda_handler, try_except_Exception in Hr.
  destruct (movieId event) as [m|]; [|subst r; by left].
  destruct (json_loads_body (body event)) as [e|[b|]];
    [subst r; by left| |subst r; by left].
  destruct (dict_get (py "status") b) as [v|]; [|subst r; by left].
  unfold validation.validate_movie_status in Hr.
  destruct v as [| | |st| |]; try (subst r; by left).
  case_bool_decide as Hst; [|subst r; by left].
  unfold try_except_ClientError, dynamodb_client.movies_update_item,
    store_call in Hr.
  destruct (fault rt _ _) as [[e|w]|]; simpl in Hr.
  - subst r. left. split; [apply on_update_error_not_success|done].
  - subst r. by left.
  - destruct (movies_table (db s) !! m) as [a|] eqn:Ha; simpl in Hr; subst r.
    + right. by exists m, st, a.
    + by left.
Qed.

Lemma create_movie_outcomes (event : Event) (rt : Runtime) (s : State) :
  let r := create_movie.lambda_handler event rt s in
  db r.2 = db s
  ∨ (∃ t u,
       validation.validate_movie_title (JStr t) = (true, None)
       ∧ sub event = Some u
       ∧ (db r.2 = put_movie (new_movie rt t u) (db s)
          ∨ db r.2 = put_interest (creator_interest rt u)
                       (put_movie (new_movie rt t u) (db s)))).
Proof.
  name_run r Hr.
  destruct (json_loads_body (body event)) as [e|[b|]] eqn:Hb;
    [unfold create_movie.lambda_handler, try_except_Exception in Hr;
     rewrite Hb in Hr; subst r; by left| |
     unfold create_movie.lambda_handler, try_except_Exception in Hr;
     rewrite Hb in Hr; subst r; by left].
  destruct (dict_get (py "title") b) as [v|] eqn:Hv;
    [|unfold create_movie.lambda_handler, try_except_Exception in Hr;
      rewrite Hb, Hv in Hr; subst r; by left].
  destruct (validation.validate_movie_title v) as [[|] msg] eqn:Hval;
    [|unfold create_movie.lambda_handler, try_except_Exception in Hr;
      rewrite Hb, Hv, Hval in Hr; subst r; by left].
  destruct v as [| | |t| |];
    try (unfold create_movie.lambda_handler, try_except_Exception in Hr;
         rewrite Hb, Hv, Hval in Hr; subst r; by left).
  assert (Hval' : validation.validate_movie_title (JStr t) = (true, None)).
  { revert Hval. unfold validation.validate_movie_title.
    destruct (strip t); [done|]. by destruct (_ <? _). }
  destruct (sub event) as [u|] eqn:Hu;
    [|unfold create_movie.lambda_handler, try_except_Exception in Hr;
      rewrite Hb, Hv, Hval, Hu in Hr; subst r; by left].
  rewrite (create_movie_run event rt s b t u Hb Hv Hval' Hu) in Hr.
  simpl in Hr.
  destruct (fault rt (calls s) _) as [[e|w]|]; [subst r; by left..|].
  right. exists t, u. split; [done|]. split; [done|].
  destruct (fault rt _ _) as [[e|w]|]; subst r; simpl; auto.
Qed.

Lemma delete_movie_outcomes (event : Event) (rt : Runtime) (s : State) :
  let r := delete_movie.lambda_handler event rt s in
  (response.statusCode r.1 ≠ 204 ∧ db r.2 = db s)
  ∨ (∃ m,
       movieId event = Some m
       ∧ is_Some (movies_table (db s) !! m)
       ∧ r.1 = response.no_content_response
       ∧ db r.2 = {| movies_table := delete m (movies_table (db s));
                     interests_table :=
                       interests_not_of m (interests_table (db s)) |}).
Proof.
  name_run r Hr.
  unfold delete_movie.lambda_handler, try_except_Exception in Hr.
  destruct (movieId event) as [m|]; [|subst r; by left].
  unfold try_except_ClientError, dynamodb_client.interests_query,
    dynamodb_client.transact_write_items, store_call in Hr; simpl in Hr.
  destruct (fault rt (calls s) (Query m)) as [[e|w]|]; simpl in Hr.
  - subst r. left. split; [apply database_error_not_success|done].
  - subst r. by left.
  - destruct (fault rt _ _) as [[e|w]|]; simpl in Hr.
    + subst r. left. split; [apply on_transaction_error_not_success|done].
    + subst r. by left.
    + destruct (movies_table (db s) !! m) as [a|] eqn:Hm.
      * rewrite transact_commits in Hr by (by rewrite Hm). simpl in Hr.
        subst r. right. exists m. by rewrite Hm.
      * destruct (transact_cancels (db s) m (query_items m (db s)) Hm)
          as [reasons Hc].
        rewrite Hc in Hr. simpl in Hr. subst r. by left.
Qed.

Lemma get_movies_db (event : Event) (rt : Runtime) (s : State) :
  db (get_movies.lambda_handler event rt s).2 = db s.
Proof.
  rewrite get_movies_run. simpl.
  pose proof (for_each_enrich_db rt (scan_items (db s))
                {| db := db s; calls := calls s ++ [Scan] |}) as Hdb.
  destruct (fault rt (calls s) Scan) as [[e|w]|]; [done..|].
  by destruct (for_each _ _ _) as [[l|e] s'].
Qed.

(** ** Updating the status, continued *)

(** X6. [update_movie_status] on an identifier under which no movie is
    stored never creates one: the tables are unchanged whatever the
    service does, and when the update call is answered the response is
    404 [NotFoundError]. *)
Theorem update_status_not_found (event : Event) (rt : Runtime) (s : State)
    (movie_id st : pystr) (b : json) :
  movieId event = Some movie_id →
  json_loads_body (body event) = inr (Some b) →
  dict_get (py "status") b = Some (JStr st) →
  st ∈ validation.valid_statuses →
  movies_table (db s) !! movie_id = None →
  let r := update_movie_status.lambda_handler event rt s in
  db r.2 = db s
  ∧ (fault rt (calls s) (UpdateItem movie_id st (now rt)) = None →
     r.1 = response.error_response 404 "Movie not found" NotFoundError).
Proof.
  intros Hm Hb Hst Hvalid Ha. name_run r Hr.
  unfold update_movie_status.lambda_handler, try_except_Exception in Hr.
  rewrite Hm, Hb, Hst in Hr. unfold validation.validate_movie_status in Hr.
  rewrite bool_decide_true in Hr by done.
  unfold try_except_ClientError, dynamodb_client.movies_update_item,
    store_call in Hr.
  rewrite Ha in Hr.
  destruct (fault rt _ _) as [[e|w]|]; simpl in Hr; subst r; simpl;
    (split; [done|]); try done.
Qed.

Lemma update_status_not_found_witness :
  let r := update_movie_status.lambda_handler (status_event "m7" "downloaded")
             (quiet_runtime 2000 (py "id-1")) one_movie_store in
  r.1 = response.error_response 404 "Movie not found" NotFoundError
  ∧ db r.2 = db one_movie_store.
Proof.
  destruct (update_status_not_found (status_event "m7" "downloaded")
              (quiet_runtime 2000 (py "id-1")) one_movie_store
              (py "m7") (py "downloaded") _ eq_refl eq_refl eq_refl)
    as [H1 H2].
  - unfold validation.valid_statuses. apply elem_of_cons. right.
    apply list_elem_of_here.
  - reflexivity.
  - split; [exact (H2 eq_refl)|exact H1].
Defined.

(** X7. A request whose status is anything but one of the two accepted
    strings (absent, null, not a string, another spelling) is answered
    400 [ValidationError] by [update_movie_status] before any store call
    is made. *)
Theorem update_status_invalid (event : Event) (rt : Runtime) (s : State)
    (movie_id : pystr) (b v : json) :
  movieId event = Some movie_id →
  json_loads_body (body event) = inr (Some b) →
  dict_get (py "status") b = Some v →
  v ≠ JStr (py "wishlist") → v ≠ JStr (py "downloaded") →
  ∃ msg,
    validation.validate_movie_status v = (false, Some msg)
    ∧ update_movie_status.lambda_handler event rt s
      = (response.error_response 400 msg ValidationError, s).
Proof.
  intros Hm Hb Hv H1 H2.
  unfold update_movie_status.lambda_handler, try_except_Exception.
  rewrite Hm, Hb, Hv. unfold validation.validate_movie_status.
  destruct v as [| | |st| |]; try by eexists.
  rewrite bool_decide_false; [by eexists|].
  unfold validation.valid_statuses.
  intros H. apply elem_of_cons in H as [->|H]; [done|].
  apply elem_of_cons in H as [->|H]; [done|].
  by apply elem_of_nil in H.
Qed.

Lemma update_status_invalid_witness :
  update_movie_status.lambda_handler (status_event "m1" "Downloaded")
    (quiet_runtime 2000 (py "id-1")) one_movie_store
  = (response.error_response 400
       "Status must be one of: wishlist, downloaded" ValidationError,
     one_movie_store).
Proof.
  destruct (update_status_invalid (status_event "m1" "Downloaded")
              (quiet_runtime 2000 (py "id-1")) one_movie_store (py "m1")
              _ (JStr (py "Downloaded")) eq_refl eq_refl eq_refl)
    as (msg & Hmsg & Hr); [discriminate..|].
  rewrite Hr. injection Hmsg as <-. reflexivity.
Defined.

(** X8. Whatever the request and whatever the service does,
    [update_movie_status] leaves the Interests table alone, stores and
    removes no movie, and changes of a stored movie nothing but its
    status and [updatedAt]: the title, the creator and [createdAt] stay. *)
Theorem update_status_frame (event : Event) (rt : Runtime) (s : State) :
  let r := update_movie_status.lambda_handler event rt s in
  interests_table (db r.2) = interests_table (db s)
  ∧ (∀ k, is_Some (movies_table (db r.2) !! k)
          ↔ is_Some (movies_table (db s) !! k))
  ∧ (∀ k a a',
       movies_table (db s) !! k = Some a →
       movies_table (db r.2) !! k = Some a' →
       Movie.title a' = Movie.title a
       ∧ Movie.createdBy a' = Movie.createdBy a
       ∧ Movie.createdAt a' = Movie.createdAt a
       ∧ (a' = a ∨ (movieId event = Some k
                    ∧ Movie.updatedAt a' = now rt
                    ∧ Movie.status a' ∈ validation.valid_statuses))).
Proof.
  intros r.
  destruct (update_status_outcomes event rt s)
    as [[_ H]|(m & st & a0 & Hm & Hst & Ha0 & _ & H)]; fold r in H; rewrite H.
  - split; [done|]. split; [done|]. intros k a a' Ha Ha'.
    rewrite Ha in Ha'. injection Ha' as <-. auto.
  - simpl. split; [done|]. split.
    + intros k. destruct (decide (k = m)) as [->|Hne].
      * rewrite lookup_insert_eq, Ha0. by split.
      * by rewrite lookup_insert_ne.
    + intros k a a' Ha. destruct (decide (k = m)) as [->|Hne].
      * rewrite lookup_insert_eq. intros [= <-].
        rewrite Ha0 in Ha. injection Ha as <-. simpl.
        repeat (split; [done|]). right. done.
      * rewrite lookup_insert_ne by done. rewrite Ha. intros [= <-]. auto.
Qed.

(** X9. For a stored movie and an available store, two status updates
    in a row leave the status of the second: setting another status and
    then the one the movie had gives the movie its status back, whichever
    of the two it was, with the title, the creator and [createdAt]
    untouched and [updatedAt] at the second clock reading. *)
Theorem update_status_toggle_back (ev1 ev2 : Event) (rt1 rt2 : Runtime)
    (s : State) (movie_id st1 : pystr) (b1 b2 : json) (a : Movie.attrs) :
  movieId ev1 = Some movie_id →
  movieId ev2 = Some movie_id →
  movies_table (db s) !! movie_id = Some a →
  Movie.status a ∈ validation.valid_statuses →
  st1 ∈ validation.valid_statuses →
  json_loads_body (body ev1) = inr (Some b1) →
  dict_get (py "status") b1 = Some (JStr st1) →
  json_loads_body (body ev2) = inr (Some b2) →
  dict_get (py "status") b2 = Some (JStr (Movie.status a)) →
  store_available rt1 →
  store_available rt2 →
  let r1 := update_movie_status.lambda_handler ev1 rt1 s in
  let r2 := update_movie_status.lambda_handler ev2 rt2 r1.2 in
  status_of movie_id r1.2 = Some st1
  ∧ movies_table (db r2.2) !! movie_id
    = Some (set_status (Movie.status a) (now rt2) a)
  ∧ status_of movie_id r2.2 = Some (Movie.status a)
  ∧ interests_table (db r2.2) = interests_table (db s).
Proof.
  intros Hm1 Hm2 Ha Hsa Hst1 Hb1 Hs1 Hb2 Hs2 Hrt1 Hrt2 r1 r2.
  assert (Hr1 : r1 = update_movie_status.lambda_handler ev1 rt1 s) by done.
  rewrite (update_status_once ev1 rt1 s movie_id st1 b1 a)
    in Hr1 by first [done | apply Hrt1].
  assert (Hr2 : r2 = update_movie_status.lambda_handler ev2 rt2 r1.2) by done.
  rewrite Hr1 in Hr2.
  rewrite (update_status_once ev2 rt2 _ movie_id (Movie.status a) b2
             (set_status st1 (now rt1) a))
    in Hr2 by first [done | simpl; by rewrite lookup_insert_eq | apply Hrt2].
  clearbody r1 r2. subst r1 r2. unfold status_of. simpl.
  rewrite !lookup_insert_eq. done.
Qed.

Lemma update_status_toggle_back_witness :
  let r1 := update_movie_status.lambda_handler (status_event "m1" "wishlist")
              (quiet_runtime 2000 (py "id-1")) downloaded_store in
  let r2 := update_movie_status.lambda_handler (status_event "m1" "downloaded")
              (quiet_runtime 3000 (py "id-1")) r1.2 in
  status_of (py "m1") r1.2 = Some (py "wishlist")
  ∧ status_of (py "m1") r2.2 = status_of (py "m1") downloaded_store.
Proof.
  intros r1 r2.
  assert (Hv : ∀ x, x = py "wishlist" ∨ x = py "downloaded" →
                    x ∈ validation.valid_statuses).
  { intros x [-> | ->]; unfold validation.valid_statuses;
      repeat first [apply list_elem_of_here | apply list_elem_of_further]. }
  destruct (update_status_toggle_back
              (status_event "m1" "wishlist") (status_event "m1" "downloaded")
              (quiet_runtime 2000 (py "id-1")) (quiet_runtime 3000 (py "id-1"))
              downloaded_store (py "m1") (py "wishlist") _ _ _
              eq_refl eq_refl eq_refl (Hv _ (or_intror eq_refl))
              (Hv _ (or_introl eq_refl)) eq_refl eq_refl eq_refl eq_refl
              (λ _ _, eq_refl) (λ _ _, eq_refl))
    as (H1 & _ & H3 & _).
  split; [exact H1|]. exact H3.
Defined.

(** ** Creating a movie, continued *)

(** X10. The two writes of [create_movie] are not one transaction: when
    the movie is written and the write of the creator's Interest is then
    refused with a [ClientError], the request is answered with the
    [DatabaseError] of that refusal although the movie is stored, without
    the creator's Interest. *)
Theorem create_movie_interest_write_refused (event : Event) (rt : Runtime)
    (s : State) (b : json) (t user_id : pystr) (e : service_error) :
  json_loads_body (body event) = inr (Some b) →
  dict_get (py "title") b = Some (JStr t) →
  validation.validate_movie_title (JStr t) = (true, None) →
  sub event = Some user_id →
  fault rt (calls s) (PutMovie (new_movie rt t user_id)) = None →
  fault rt (calls s ++ [PutMovie (new_movie rt t user_id)])
    (PutInterest (creator_interest rt user_id)) = Some (ClientError e) →
  let r := create_movie.lambda_handler event rt s in
  r.1 = database_error e
  ∧ response.statusCode r.1 ≠ 201
  ∧ movies_table (db r.2) !! uuid4 rt
    = Some (Movie.attributes (new_movie rt t user_id))
  ∧ interests_table (db r.2) = interests_table (db s).
Proof.
  intros Hb Ht Hv Hu Hf1 Hf2. name_run r Hr.
  rewrite (create_movie_run event rt s b t user_id Hb Ht Hv Hu) in Hr.
  simpl in Hr. rewrite Hf1, Hf2 in Hr. subst r. simpl.
  rewrite lookup_insert_eq.
  split; [done|]. split; [apply database_error_not_success|done].
Qed.

Lemma create_movie_interest_write_refused_witness :
  let r := create_movie.lambda_handler
             (title_event (JStr (py "Heat")) (Some (py "u1")))
             interest_put_refused empty_store in
  response.statusCode r.1 = 503
  ∧ is_Some (movies_table (db r.2) !! py "id-1")
  ∧ interests_table (db r.2) = ∅.
Proof.
  intros r.
  destruct (create_movie_interest_write_refused
              (title_event (JStr (py "Heat")) (Some (py "u1")))
              interest_put_refused empty_store _ (py "Heat") (py "u1")
              throttled eq_refl eq_refl eq_refl eq_refl eq_refl eq_refl)
    as (H1 & _ & H3 & H4).
  fold r in H1, H3, H4. rewrite H1, H4.
  split; [reflexivity|]. split; [|reflexivity].
  eexists. exact H3.
Defined.

(** X11. [create_movie] makes no store call and changes nothing unless
    the body parses to a dict, the title is valid and the caller is
    known. The title is judged before the caller: a request with an
    invalid title is answered 400 even when the caller is missing, and a
    request with a valid title and no caller is answered 401. *)
Theorem create_movie_gate (event : Event) (rt : Runtime) (s : State) :
  let r := create_movie.lambda_handler event rt s in
  (r.2 ≠ s →
   ∃ b t u,
     json_loads_body (body event) = inr (Some b)
     ∧ dict_get (py "title") b = Some (JStr t)
     ∧ validation.validate_movie_title (JStr t) = (true, None)
     ∧ sub event = Some u)
  ∧ (∀ b v,
       json_loads_body (body event) = inr (Some b) →
       dict_get (py "title") b = Some v →
       sub event = None →
       r.2 = s
       ∧ response.statusCode r.1
         = if (validation.validate_movie_title v).1 then 401 else 400).
Proof.
  name_run r Hr.
  unfold create_movie.lambda_handler, try_except_Exception in Hr.
  split.
  - intros Hne.
    destruct (json_loads_body (body event)) as [e|[b|]] eqn:Hb;
      [by subst r| |by subst r].
    destruct (dict_get (py "title") b) as [v|] eqn:Hv; [|by subst r].
    destruct (validation.validate_movie_title v) as [[|] msg] eqn:Hval;
      [|by subst r].
    destruct v as [| | |t| |]; try (simpl in Hval; discriminate).
    destruct (sub event) as [u|] eqn:Hu; [|by subst r].
    exists b, t, u. split; [done|]. split; [done|]. split; [|done].
    revert Hval. unfold validation.validate_movie_title.
    destruct (strip t); [done|]. by destruct (_ <? _).
  - intros b v Hb Hv Hu. rewrite Hb, Hv, Hu in Hr.
    destruct (validation.validate_movie_title v) as [[|] msg] eqn:Hval;
      [|by subst r].
    destruct v as [| | |t| |]; try (simpl in Hval; discriminate).
    by subst r.
Qed.

(** ** Interest, continued *)

(** X12. Whatever the service does, [add_interest] never touches the
    Movies table, writes no Interest other than the caller's own for the
    movie of the request, and writes that one only when the movie is
    stored. *)
Theorem add_interest_frame (event : Event) (rt : Runtime) (s : State) :
  let r := add_interest.lambda_handler event rt s in
  movies_table (db r.2) = movies_table (db s)
  ∧ (∀ k, (sub event, movieId event) ≠ (Some k.1, Some k.2) →
          interests_table (db r.2) !! k = interests_table (db s) !! k)
  ∧ (∀ k v, interests_table (db s) !! k = Some v →
            is_Some (interests_table (db r.2) !! k))
  ∧ (db r.2 ≠ db s →
     ∃ m, movieId event = Some m ∧ is_Some (movies_table (db s) !! m)).
Proof.
  intros r.
  destruct (add_interest_outcomes event rt s)
    as [[_ H]|(m & u & Hm & Hu & Ha & _ & H)]; fold r in H; rewrite H.
  - split; [done|]. split; [done|]. split; [by eauto|done].
  - simpl. unfold Interest.key. simpl.
    split; [done|]. split; [|split].
    + intros [u' m'] Hne. simpl in Hne. rewrite lookup_insert_ne; [done|].
      intros [= -> ->]. by rewrite Hm, Hu in Hne.
    + intros k v Hk. destruct (decide (k = (u, m))) as [->|Hne].
      * by rewrite lookup_insert_eq.
      * rewrite lookup_insert_ne by done. by rewrite Hk.
    + intros _. by exists m.
Qed.

(** X13. Whatever the service does, [remove_interest] never touches the
    Movies table, never adds or alters an Interest, and removes no
    Interest other than the caller's own for the movie of the request. *)
Theorem remove_interest_frame (event : Event) (rt : Runtime) (s : State) :
  let r := remove_interest.lambda_handler event rt s in
  movies_table (db r.2) = movies_table (db s)
  ∧ (∀ k, (sub event, movieId event) ≠ (Some k.1, Some k.2) →
          interests_table (db r.2) !! k = interests_table (db s) !! k)
  ∧ (∀ k v, interests_table (db r.2) !! k = Some v →
            interests_table (db s) !! k = Some v).
Proof.
  intros r.
  destruct (remove_interest_outcomes event rt s)
    as [[_ H]|(m & u & Hm & Hu & _ & H)]; fold r in H; rewrite H.
  - done.
  - simpl. split; [done|]. split.
    + intros [u' m'] Hne. simpl in Hne. rewrite lookup_delete_ne; [done|].
      intros [= -> ->]. by rewrite Hm, Hu in Hne.
    + intros k v. destruct (decide (k = (u, m))) as [->|Hne].
      * by rewrite lookup_delete_eq.
      * by rewrite lookup_delete_ne.
Qed.

(** X14. Adding an interest and then removing it with the same request
    undoes the addition: when the first call answers 201 and the second
    204, the pair has no Interest afterwards, and when it had none before
    the first call the tables are again those before the first call. *)
Theorem add_then_remove_interest (event : Event) (rt1 rt2 : Runtime)
    (s : State) :
  let r1 := add_interest.lambda_handler event rt1 s in
  let r2 := remove_interest.lambda_handler event rt2 r1.2 in
  response.statusCode r1.1 = 201 →
  response.statusCode r2.1 = 204 →
  ∃ m u,
    movieId event = Some m ∧ sub event = Some u
    ∧ interests_table (db r1.2) !! (u, m) = Some (now rt1)
    ∧ interests_table (db r2.2) !! (u, m) = None
    ∧ (interests_table (db s) !! (u, m) = None → db r2.2 = db s).
Proof.
  cbv zeta. intros H1 H2.
  destruct (add_interest_outcomes event rt1 s)
    as [[Hn _]|(m & u & Hm & Hu & Ha & _ & Hd1)]; [done|].
  destruct (remove_interest_outcomes event rt2
              (add_interest.lambda_handler event rt1 s).2)
    as [[Hn _]|(m' & u' & Hm' & Hu' & _ & Hd2)]; [done|].
  rewrite Hm in Hm'. rewrite Hu in Hu'.
  injection Hm' as <-. injection Hu' as <-.
  exists m, u. rewrite Hd2, Hd1. simpl. unfold Interest.key. simpl.
  rewrite lookup_insert_eq, lookup_delete_eq.
  repeat (split; [done|]). intros Hnone.
  apply Db_eq; simpl; [done|].
  rewrite delete_insert_eq. by apply delete_id.
Qed.

Lemma add_then_remove_interest_witness :
  let r1 := add_interest.lambda_handler (path_event "m1" "u2")
              (quiet_runtime 100 (py "id-1")) one_movie_store in
  let r2 := remove_interest.lambda_handler (path_event "m1" "u2")
              (quiet_runtime 200 (py "id-1")) r1.2 in
  interests_table (db r1.2) !! (py "u2", py "m1") = Some 100
  ∧ db r2.2 = db one_movie_store.
Proof.
  intros r1 r2.
  destruct (add_then_remove_interest (path_event "m1" "u2")
              (quiet_runtime 100 (py "id-1")) (quiet_runtime 200 (py "id-1"))
              one_movie_store eq_refl eq_refl)
    as (m & u & Hm & Hu & H1 & _ & H3).
  injection Hm as <-. injection Hu as <-.
  split; [exact H1|]. apply H3. vm_compute. reflexivity.
Defined.

(** ** Invariants of the stores the handlers build *)

Lemma referential_put_interest (d : Db) (i : Interest.t) :
  referential d →
  is_Some (movies_table d !! Interest.movieId i) →
  referential (put_interest i d).
Proof.
  intros Hd Hm k v. simpl.
  destruct (decide (k = Interest.key i)) as [->|Hne].
  - by intros _.
  - rewrite lookup_insert_ne by done. apply Hd.
Qed.

Lemma referential_put_movie (d : Db) (m : Movie.t) :
  referential d → referential (put_movie m d).
Proof.
  intros Hd k v Hk. simpl in *.
  destruct (decide (k.2 = Movie.movieId m)) as [->|Hne].
  - by rewrite lookup_insert_eq.
  - rewrite lookup_insert_ne by done. by eapply Hd.
Qed.

Lemma referential_step h (event : Event) (rt : Runtime) (s : State) :
  h ∈ handlers → referential (db s) → referential (db (h event rt s).2).
Proof.
  intros Hh Hs. unfold handlers in Hh.
  repeat (apply elem_of_cons in Hh as [->|Hh]); [..|by apply elem_of_nil in Hh].
  - destruct (create_movie_outcomes event rt s)
      as [->|(t & u & _ & _ & [-> | ->])]; [done|..].
    + by apply referential_put_movie.
    + apply referential_put_interest; [by apply referential_put_movie|].
      simpl. by rewrite lookup_insert_eq.
  - by rewrite get_movies_db.
  - destruct (update_status_outcomes event rt s)
      as [[_ ->]|(m & st & a & _ & _ & Ha & _ & ->)]; [done|].
    intros k v Hk. simpl in *. destruct (decide (k.2 = m)) as [->|Hne].
    + by rewrite lookup_insert_eq.
    + rewrite lookup_insert_ne by done. by eapply Hs.
  - destruct (add_interest_outcomes event rt s)
      as [[_ ->]|(m & u & _ & _ & Ha & _ & ->)]; [done|].
    by apply referential_put_interest.
  - destruct (remove_interest_outcomes event rt s)
      as [[_ ->]|(m & u & _ & _ & _ & ->)]; [done|].
    intros k v. simpl. destruct (decide (k = (u, m))) as [->|Hne].
    + by rewrite lookup_delete_eq.
    + rewrite lookup_delete_ne by done. apply Hs.
  - destruct (delete_movie_outcomes event rt s)
      as [[_ ->]|(m & _ & _ & _ & ->)]; [done|].
    intros k v. simpl. unfold interests_not_of.
    intros [Hk Hne]%map_lookup_filter_Some. simpl in Hne.
    rewrite lookup_delete_ne by done. by eapply Hs.
Qed.

Lemma well_formed_new_movie (rt : Runtime) (t u : pystr) :
  validation.validate_movie_title (JStr t) = (true, None) →
  well_formed_movie (Movie.attributes (new_movie rt t u)).
Proof.
  intros Hv. unfold well_formed_movie. simpl.
  split; [apply strip_strip|].
  split.
  - revert Hv. unfold validation.validate_movie_title, len.
    destruct (strip t) as [|c r]; [done|].
    destruct (500 <? _) eqn:E; [done|]. apply Z.ltb_ge in E.
    intros _. simpl length in *. lia.
  - split; [|by split; eexists].
    unfold validation.valid_statuses. apply list_elem_of_here.
Qed.

Lemma well_formed_step h (event : Event) (rt : Runtime) (s : State) :
  h ∈ handlers →
  (∀ k a, movies_table (db s) !! k = Some a → well_formed_movie a) →
  ∀ k a, movies_table (db (h event rt s).2) !! k = Some a →
         well_formed_movie a.
Proof.
  intros Hh Hs. unfold handlers in Hh.
  repeat (apply elem_of_cons in Hh as [->|Hh]); [..|by apply elem_of_nil in Hh].
  - assert (Hput : ∀ t u k a,
      validation.validate_movie_title (JStr t) = (true, None) →
      movies_table (put_movie (new_movie rt t u) (db s)) !! k = Some a →
      well_formed_movie a).
    { intros t u k a Hv. simpl.
      destruct (decide (k = uuid4 rt)) as [->|Hne].
      - rewrite lookup_insert_eq. intros [= <-].
        by apply (well_formed_new_movie rt t u).
      - rewrite lookup_insert_ne by done. apply Hs. }
    destruct (create_movie_outcomes event rt s)
      as [->|(t & u & Hv & _ & [-> | ->])]; [done|..]; intros k a.
    + by apply Hput.
    + simpl. by apply (Hput t u).
  - by rewrite get_movies_db.
  - destruct (update_status_outcomes event rt s)
      as [[_ ->]|(m & st & a0 & _ & Hst & Ha0 & _ & ->)]; [done|].
    intros k a. simpl. destruct (decide (k = m)) as [->|Hne].
    + rewrite lookup_insert_eq. intros [= <-].
      destruct (Hs _ _ Ha0) as (H1 & H2 & _ & H4 & H5).
      unfold well_formed_movie. simpl. done.
    + rewrite lookup_insert_ne by done. apply Hs.
  - destruct (add_interest_outcomes event rt s)
      as [[_ ->]|(m & u & _ & _ & Ha & _ & ->)]; [done|]. simpl. apply Hs.
  - destruct (remove_interest_outcomes event rt s)
      as [[_ ->]|(m & u & _ & _ & _ & ->)]; [done|]. simpl. apply Hs.
  - destruct (delete_movie_outcomes event rt s)
      as [[_ ->]|(m & _ & _ & _ & ->)]; [done|].
    intros k a. simpl. intros [_ Hk]%lookup_delete_Some. by eapply Hs.
Qed.

(** X15. Referential integrity: in every store the handlers can build
    from the empty one, by any sequence of invocations and whatever the
    service does in each, every Interest references a stored movie. *)
Theorem reachable_referential (s : State) :
  reachable s → referential (db s).
Proof.
  induction 1 as [|h event rt s _ IH Hh].
  - intros k v. simpl. by rewrite lookup_empty.
  - by apply referential_step.
Qed.

Lemma reachable_referential_witness :
  let r1 := create_movie.lambda_handler
              (title_event (JStr (py " Heat ")) (Some (py "u1")))
              (quiet_runtime 100 (py "m1")) empty_store in
  let r2 := add_interest.lambda_handler (path_event "m1" "u2")
              (quiet_runtime 200 (py "id-2")) r1.2 in
  interests_table (db r2.2) !! (py "u2", py "m1") = Some 200
  ∧ is_Some (movies_table (db r2.2) !! py "m1").
Proof.
  intros r1 r2.
  assert (H : interests_table (db r2.2) !! (py "u2", py "m1") = Some 200)
    by (vm_compute; reflexivity).
  split; [exact H|].
  refine (reachable_referential r2.2 _ (py "u2", py "m1") 200 H).
  apply reachable_step; [apply reachable_step; [apply reachable_empty|]|];
    unfold handlers;
    repeat first [apply list_elem_of_here | apply list_elem_of_further].
Defined.

(** X16. In every store the handlers can build from the empty one, every
    movie has a stripped, non-empty title of at most 500 characters, one
    of the two statuses, and its creator and creation time; the defaults
    with which [get_movies] reads [createdBy] and [createdAt] are never
    used on such a store. *)
Theorem reachable_movies_well_formed (s : State) (k : pystr)
    (a : Movie.attrs) :
  reachable s →
  movies_table (db s) !! k = Some a →
  well_formed_movie a.
Proof.
  intros H. revert k a. induction H as [|h event rt s _ IH Hh].
  - intros k a. simpl. by rewrite lookup_empty.
  - by apply well_formed_step.
Qed.

Lemma reachable_movies_well_formed_witness :
  let r1 := create_movie.lambda_handler
              (title_event (JStr (py " Heat ")) (Some (py "u1")))
              (quiet_runtime 100 (py "m1")) empty_store in
  let r2 := update_movie_status.lambda_handler (status_event "m1" "downloaded")
              (quiet_runtime 200 (py "id-2")) r1.2 in
  ∃ a, movies_table (db r2.2) !! py "m1" = Some a
       ∧ Movie.title a = py "Heat"
       ∧ well_formed_movie a.
Proof.
  intros r1 r2. eexists. split; [vm_compute; reflexivity|].
  split; [reflexivity|].
  refine (reachable_movies_well_formed r2.2 (py "m1") _ _ _);
    [|vm_compute; reflexivity].
  apply reachable_step; [apply reachable_step; [apply reachable_empty|]|];
    unfold handlers;
    repeat first [apply list_elem_of_here | apply list_elem_of_further].
Defined.

(** ** Listing the interested users *)

Lemma query_items_users (d : Db) (m u : pystr) :
  u ∈ Interest.userId <$> query_items m d
  ↔ is_Some (interests_table d !! (u, m)).
Proof.
  unfold query_items, interests_of. rewrite <- list_fmap_compose.
  rewrite list_elem_of_fmap. split.
  - intros [[[u' m'] v] [-> H]]. apply elem_of_map_to_list in H.
    apply map_lookup_filter_Some in H as [H1 H2]. simpl in *. subst m'.
    by eexists.
  - intros [v Hv]. exists ((u, m), v). split; [done|].
    apply elem_of_map_to_list. by apply map_lookup_filter_Some.
Qed.

Lemma user_details_ids (env : get_interested_users.Environment)
    (l : list Interest.t) (us : list get_interested_users.User) :
  get_interested_users.user_details env l = inr us →
  get_interested_users.user_id_of <$> us = Interest.userId <$> l.
Proof.
  revert us. induction l as [|i l IH]; intros us; simpl.
  - by intros [= <-].
  - destruct (get_interested_users.admin_get_user env _) as [[e|w]|resp];
      [|done|];
      (destruct (get_interested_users.user_details env l) as [e'|us'];
       [done|]; intros [= <-]; rewrite !fmap_cons; simpl; f_equal; by apply IH).
Qed.

Lemma user_details_completes (env : get_interested_users.Environment)
    (l : list Interest.t) :
  (∀ u e, get_interested_users.admin_get_user env u = inl e →
          ∃ x, e = ClientError x) →
  ∃ us, get_interested_users.user_details env l = inr us.
Proof.
  intros Henv. induction l as [|i l [us IH]]; simpl; [by eexists|].
  rewrite IH.
  destruct (get_interested_users.admin_get_user env _) as [[e|w]|resp] eqn:E;
    [by eexists| |by eexists].
  by destruct (Henv _ _ E).
Qed.

Lemma get_interested_users_run (event : Event) (rt : Runtime)
    (env : get_interested_users.Environment) (s : State) (m : pystr) :
  movieId event = Some m →
  let s' := {| db := db s; calls := calls s ++ [Query m] |} in
  get_interested_users.lambda_handler event rt env s
  = match fault rt (calls s) (Query m) with
    | Some (ClientError e) =>
        (get_interested_users.other_response (database_error e), s')
    | Some (Exception _) =>
        (get_interested_users.other_response internal_server_error, s')
    | None =>
        if get_interested_users.truthy
             (get_interested_users.USER_POOL_ID env)
        then
          match get_interested_users.user_details env
                  (query_items m (db s)) with
          | inr users => (get_interested_users.users_response 200 users, s')
          | inl _ =>
              (get_interested_users.other_response internal_server_error, s')
          end
        else
          (get_interested_users.users_response 200
             ((λ i, get_interested_users.UserIdOnly (Interest.userId i))
              <$> query_items m (db s)), s')
    end.
Proof.
  intros Hm. unfold get_interested_users.lambda_handler. rewrite Hm.
  unfold dynamodb_client.interests_query, store_call. simpl.
  by destruct (fault rt _ _) as [[e|w]|].
Qed.

(** The users of a 200 answer are those of the interests of the movie. *)
Lemma get_interested_users_ids (event : Event) (rt : Runtime)
    (env : get_interested_users.Environment) (s : State) code users :
  (get_interested_users.lambda_handler event rt env s).1
  = get_interested_users.users_response code users →
  code = 200
  ∧ ∃ m, movieId event = Some m
         ∧ get_interested_users.user_id_of <$> users
           = Interest.userId <$> query_items m (db s).
Proof.
  destruct (movieId event) as [m|] eqn:Hm;
    [|unfold get_interested_users.lambda_handler; by rewrite Hm].
  rewrite (get_interested_users_run event rt env s m Hm). simpl.
  destruct (fault rt _ _) as [[e|w]|]; [done..|].
  destruct (get_interested_users.truthy _).
  - destruct (get_interested_users.user_details env _) as [e|us] eqn:E;
      [done|].
    intros [= <- <-]. split; [done|]. exists m. split; [done|].
    by apply user_details_ids in E.
  - intros [= <- <-]. split; [done|]. exists m. split; [done|].
    by rewrite <- list_fmap_compose.
Qed.

(** X17. [get_interested_users] never writes. Every 200 answer holds one
    entry per Interest of the movie, carrying that Interest's user, also
    for the users the directory does not know. When the query is answered
    and the directory fails with [ClientError]s only, the answer is 200;
    for a movie without interests, stored or not, it is the empty list. *)
Theorem get_interested_users_lists_interests (event : Event) (rt : Runtime)
    (env : get_interested_users.Environment) (s : State) :
  let r := get_interested_users.lambda_handler event rt env s in
  db r.2 = db s
  ∧ (∀ code users,
       r.1 = get_interested_users.users_response code users →
       code = 200
       ∧ ∃ m, movieId event = Some m
              ∧ get_interested_users.user_id_of <$> users
                = Interest.userId <$> query_items m (db s))
  ∧ (∀ m, movieId event = Some m →
          fault rt (calls s) (Query m) = None →
          (∀ u e, get_interested_users.admin_get_user env u = inl e →
                  ∃ x, e = ClientError x) →
          ∃ users,
            r.1 = get_interested_users.users_response 200 users
            ∧ (interests_of m (interests_table (db s)) = ∅ → users = [])).
Proof.
  intros r. split; [|split].
  - subst r. destruct (movieId event) as [m|] eqn:Hm;
      [|unfold get_interested_users.lambda_handler; by rewrite Hm].
    rewrite (get_interested_users_run event rt env s m Hm). simpl.
    destruct (fault rt _ _) as [[e|w]|]; [done..|].
    destruct (get_interested_users.truthy _); [|done].
    by destruct (get_interested_users.user_details env _).
  - intros code users. apply get_interested_users_ids.
  - intros m Hm Hq Henv. subst r.
    rewrite (get_interested_users_run event rt env s m Hm). simpl.
    rewrite Hq.
    destruct (user_details_completes env (query_items m (db s)) Henv)
      as [us Hus].
    destruct (get_interested_users.truthy _).
    + rewrite Hus. exists us. split; [done|]. intros Hempty.
      apply user_details_ids in Hus. unfold query_items in Hus.
      rewrite Hempty, map_to_list_empty in Hus.
      by apply fmap_nil_inv in Hus.
    + eexists. split; [done|]. intros Hempty. unfold query_items.
      by rewrite Hempty, map_to_list_empty.
Qed.

Lemma get_interested_users_lists_interests_witness :
  let r := get_interested_users.lambda_handler (path_event "m1" "u9")
             (quiet_runtime 100 (py "id-1")) empty_directory
             three_movies_store in
  let r0 := get_interested_users.lambda_handler (path_event "m9" "u9")
              (quiet_runtime 100 (py "id-1")) empty_directory
              three_movies_store in
  (∃ users, r.1 = get_interested_users.users_response 200 users
            ∧ length users = 2%nat)
  ∧ r0.1 = get_interested_users.users_response 200 [].
Proof.
  intros r r0.
  assert (Henv : ∀ u e,
    get_interested_users.admin_get_user empty_directory u = inl e →
    ∃ x, e = ClientError x) by (intros u e [= <-]; by eexists).
  split.
  - destruct (get_interested_users_lists_interests (path_event "m1" "u9")
                (quiet_runtime 100 (py "id-1")) empty_directory
                three_movies_store) as (_ & H2 & H3).
    destruct (H3 (py "m1") eq_refl eq_refl Henv) as (users & Hu & _).
    exists users. split; [exact Hu|].
    destruct (H2 _ _ Hu) as (_ & m & [= <-] & Hids).
    apply (f_equal length) in Hids. rewrite !length_fmap in Hids.
    rewrite Hids. vm_compute. reflexivity.
  - destruct (get_interested_users_lists_interests (path_event "m9" "u9")
                (quiet_runtime 100 (py "id-1")) empty_directory
                three_movies_store) as (_ & _ & H3).
    destruct (H3 (py "m9") eq_refl eq_refl Henv) as (users & Hu & Hnil).
    fold r0 in Hu. rewrite Hu. f_equal. apply Hnil.
    vm_compute. reflexivity.
Defined.

(** X18. After an [add_interest] answered 201, every 200 answer of
    [get_interested_users] for the same movie lists the caller. *)
Theorem added_interest_is_listed (event : Event) (rt rt' : Runtime)
    (env : get_interested_users.Environment) (s : State) code users :
  let r1 := add_interest.lambda_handler event rt s in
  response.statusCode r1.1 = 201 →
  (get_interested_users.lambda_handler event rt' env r1.2).1
  = get_interested_users.users_response code users →
  ∃ u, sub event = Some u
       ∧ u ∈ get_interested_users.user_id_of <$> users.
Proof.
  cbv zeta. intros H201 Hlist.
  destruct (add_interest_outcomes event rt s)
    as [[Hn _]|(m & u & Hm & Hu & _ & _ & Hd)]; [done|].
  apply get_interested_users_ids in Hlist as (_ & m' & Hm' & ->).
  rewrite Hm in Hm'. injection Hm' as <-.
  exists u. split; [done|]. apply query_items_users. rewrite Hd. simpl.
  unfold Interest.key. simpl. by rewrite lookup_insert_eq.
Qed.

Lemma added_interest_is_listed_witness :
  let r1 := add_interest.lambda_handler (path_event "m1" "u2")
              (quiet_runtime 100 (py "id-1")) one_movie_store in
  ∃ users,
    (get_interested_users.lambda_handler (path_event "m1" "u2")
       (quiet_runtime 200 (py "id-1")) no_directory r1.2).1
    = get_interested_users.users_response 200 users
    ∧ py "u2" ∈ get_interested_users.user_id_of <$> users.
Proof.
  intros r1. eexists. split; [vm_compute; reflexivity|].
  destruct (added_interest_is_listed (path_event "m1" "u2")
              (quiet_runtime 100 (py "id-1")) (quiet_runtime 200 (py "id-1"))
              no_directory one_movie_store 200 _ eq_refl
              ltac:(vm_compute; reflexivity)) as (u & [= <-] & Hu).
  exact Hu.
Defined.

(** X19. After a [remove_interest] answered 204, no 200 answer of
    [get_interested_users] for the same movie lists the caller. *)
Theorem removed_interest_is_not_listed (event : Event) (rt rt' : Runtime)
    (env : get_interested_users.Environment) (s : State) code users :
  let r1 := remove_interest.lambda_handler event rt s in
  response.statusCode r1.1 = 204 →
  (get_interested_users.lambda_handler event rt' env r1.2).1
  = get_interested_users.users_response code users →
  ∃ u, sub event = Some u
       ∧ u ∉ (get_interested_users.user_id_of <$> users).
Proof.
  cbv zeta. intros H204 Hlist.
  destruct (remove_interest_outcomes event rt s)
    as [[Hn _]|(m & u & Hm & Hu & _ & Hd)]; [done|].
  apply get_interested_users_ids in Hlist as (_ & m' & Hm' & ->).
  rewrite Hm in Hm'. injection Hm' as <-.
  exists u. split; [done|]. rewrite query_items_users, Hd. simpl.
  rewrite lookup_delete_eq. by intros [? ?].
Qed.

Lemma removed_interest_is_not_listed_witness :
  let r1 := remove_interest.lambda_handler (path_event "m1" "u1")
              (quiet_runtime 100 (py "id-1")) three_movies_store in
  ∃ users,
    (get_interested_users.lambda_handler (path_event "m1" "u1")
       (quiet_runtime 200 (py "id-1")) no_directory r1.2).1
    = get_interested_users.users_response 200 users
    ∧ (py "u1" ∉ get_interested_users.user_id_of <$> users)
    ∧ length users = 1%nat.
Proof.
  intros r1. eexists. split; [vm_compute; reflexivity|].
  split; [|vm_compute; reflexivity].
  destruct (removed_interest_is_not_listed (path_event "m1" "u1")
              (quiet_runtime 100 (py "id-1")) (quiet_runtime 200 (py "id-1"))
              no_directory three_movies_store 200 _ eq_refl
              ltac:(vm_compute; reflexivity)) as (u & [= <-] & Hu).
  exact Hu.
Defined.

(** ** Deleting, continued *)

Lemma delete_movie_absent (event : Event) (rt : Runtime) (s : State)
    (m : pystr) :
  movieId event = Some m →
  movies_table (db s) !! m = None →
  store_available rt →
  (delete_movie.lambda_handler event rt s).1
  = response.error_response 404 "Movie not found" NotFoundError.
Proof.
  intros Hev Hm Hrt.
  unfold delete_movie.lambda_handler, try_except_Exception.
  rewrite Hev.
  unfold try_except_ClientError, dynamodb_client.interests_query,
    dynamodb_client.transact_write_items, store_call; simpl.
  repeat (rewrite Hrt; simpl).
  destruct (transact_cancels (db s) m (query_items m (db s)) Hm)
    as [reasons ->].
  done.
Qed.

(** X20. Deleting is not repeatable: after a [delete_movie] answered
    204, a second [delete_movie] for the same movie, the store being
    available, is answered 404 [NotFoundError] and changes nothing. *)
Theorem delete_movie_twice (event : Event) (rt1 rt2 : Runtime) (s : State) :
  let r1 := delete_movie.lambda_handler event rt1 s in
  let r2 := delete_movie.lambda_handler event rt2 r1.2 in
  response.statusCode r1.1 = 204 →
  store_available rt2 →
  r2.1 = response.error_response 404 "Movie not found" NotFoundError
  ∧ db r2.2 = db r1.2.
Proof.
  cbv zeta. intros H204 Hrt.
  destruct (delete_movie_outcomes event rt1 s)
    as [[Hn _]|(m & Hm & _ & _ & Hd)]; [done|].
  assert (Habs : movies_table
                   (db (delete_movie.lambda_handler event rt1 s).2) !! m
                 = None).
  { rewrite Hd. simpl. apply lookup_delete_eq. }
  split; [by apply (delete_movie_absent event rt2 _ m)|].
  destruct (delete_movie_outcomes event rt2
              (delete_movie.lambda_handler event rt1 s).2)
    as [[_ H]|(m' & Hm' & [a Ha] & _)]; [done|].
  rewrite Hm in Hm'. injection Hm' as <-. by rewrite Habs in Ha.
Qed.

Lemma delete_movie_twice_witness :
  let r1 := delete_movie.lambda_handler (path_event "m1" "u1")
              (quiet_runtime 100 (py "id-1")) three_movies_store in
  let r2 := delete_movie.lambda_handler (path_event "m1" "u1")
              (quiet_runtime 200 (py "id-1")) r1.2 in
  response.statusCode r1.1 = 204
  ∧ response.statusCode r2.1 = 404.
Proof.
  intros r1 r2. split; [vm_compute; reflexivity|].
  destruct (delete_movie_twice (path_event "m1" "u1")
              (quiet_runtime 100 (py "id-1")) (quiet_runtime 200 (py "id-1"))
              three_movies_store eq_refl (λ _ _, eq_refl)) as [H _].
  fold r1 r2 in H. by rewrite H.
Defined.

(** X21. The cascade is observable: after a [delete_movie] answered 204,
    every 200 answer of [get_interested_users] for that movie is the
    empty list. *)
Theorem deleted_movie_has_no_interested_users (event : Event)
    (rt rt' : Runtime) (env : get_interested_users.Environment) (s : State)
    code users :
  let r1 := delete_movie.lambda_handler event rt s in
  response.statusCode r1.1 = 204 →
  (get_interested_users.lambda_handler event rt' env r1.2).1
  = get_interested_users.users_response code users →
  users = [].
Proof.
  cbv zeta. intros H204 Hlist.
  destruct (delete_movie_outcomes event rt s)
    as [[Hn _]|(m & Hm & _ & _ & Hd)]; [done|].
  apply get_interested_users_ids in Hlist as (_ & m' & Hm' & Hids).
  rewrite Hm in Hm'. injection Hm' as <-.
  rewrite Hd in Hids. unfold query_items in Hids. simpl in Hids.
  rewrite interests_of_not_of, map_to_list_empty in Hids.
  by apply fmap_nil_inv in Hids.
Qed.

Lemma deleted_movie_has_no_interested_users_witness :
  let r1 := delete_movie.lambda_handler (path_event "m1" "u1")
              (quiet_runtime 100 (py "id-1")) three_movies_store in
  (get_interested_users.lambda_handler (path_event "m1" "u1")
     (quiet_runtime 200 (py "id-1")) no_directory r1.2).1
  = get_interested_users.users_response 200 [].
Proof.
  intros r1.
  assert (H : ∃ users,
    (get_interested_users.lambda_handler (path_event "m1" "u1")
       (quiet_runtime 200 (py "id-1")) no_directory r1.2).1
    = get_interested_users.users_response 200 users).
  { eexists. vm_compute. reflexivity. }
  destruct H as [users H]. rewrite H. f_equal.
  exact (deleted_movie_has_no_interested_users (path_event "m1" "u1")
           (quiet_runtime 100 (py "id-1")) (quiet_runtime 200 (py "id-1"))
           no_directory three_movies_store 200 users eq_refl H).
Defined.

(** ** The listing, continued *)

Lemma for_each_enrich_available (rt : Runtime) (ms : list Movie.t)
    (s : State) :
  store_available rt →
  ∃ s', for_each (get_movies.enrich rt) ms s
        = (Ok (enriched rt (db s) <$> ms), s')
        ∧ db s' = db s.
Proof.
  intros Hrt. revert s. induction ms as [|mv ms IH]; intros s; simpl.
  - by eexists.
  - unfold bind at 1. rewrite enrich_run. simpl. rewrite Hrt.
    unfold bind.
    destruct (IH {| db := db s;
                    calls := calls s ++ [Query (Movie.movieId mv)] |})
      as (s' & -> & Hdb).
    simpl in *. by eexists.
Qed.

(** The resolver of [get_movies] gives the name the directory gives. *)
Lemma get_username_directory_name (rt : Runtime) (user_id : pystr) :
  get_movies.get_username_from_user_id rt user_id
  = directory_name rt user_id.
Proof.
  unfold get_movies.get_username_from_user_id, directory_name.
  destruct (list_users rt user_id) as [[|[name|] users]|]; done.
Qed.

(** X22. With the store available, [get_movies] answers 200 with the
    stored movies, each listed once; a listed movie has the title,
    status, [createdAt] and [updatedAt] it is stored with, as
    [createdBy] the name the directory gives for the stored creator (for
    the empty string when none is stored), and as [interestedUsers] the
    names the directory gives for the users of the Interests that
    reference it, one per Interest. *)
Theorem get_movies_enrichment (event : Event) (rt : Runtime) (s : State) :
  store_available rt →
  ∃ l,
    (get_movies.lambda_handler event rt s).1
    = response.success_response 200 (response.MoviesBody l)
    ∧ listed_id <$> l ≡ₚ (map_to_list (movies_table (db s))).*1
    ∧ (∀ x, x ∈ l →
         ∃ a,
           movies_table (db s) !! listed_id x = Some a
           ∧ Movie.title (Movie.attributes (EnrichedMovie.movie x))
             = Movie.title a
           ∧ Movie.status (Movie.attributes (EnrichedMovie.movie x))
             = Movie.status a
           ∧ Movie.createdAt (Movie.attributes (EnrichedMovie.movie x))
             = Movie.createdAt a
           ∧ Movie.updatedAt (Movie.attributes (EnrichedMovie.movie x))
             = Movie.updatedAt a
           ∧ Movie.createdBy (Movie.attributes (EnrichedMovie.movie x))
             = Some (directory_name rt
                       (match Movie.createdBy a with
                        | Some creator => creator
                        | None => []
                        end))
           ∧ EnrichedMovie.interestedUsers x
             = directory_name rt
               <$> (Interest.userId
                    <$> query_items (listed_id x) (db s))
           ∧ length (EnrichedMovie.interestedUsers x)
             = size (interests_of (listed_id x) (interests_table (db s)))).
Proof.
  intros Hrt. rewrite get_movies_run. simpl. rewrite Hrt.
  destruct (for_each_enrich_available rt (scan_items (db s))
              {| db := db s; calls := calls s ++ [Scan] |} Hrt)
    as (s' & -> & _).
  simpl. eexists. split; [done|]. split.
  - rewrite sort_reverse_perm, <- list_fmap_compose.
    rewrite <- scan_items_ids.
    by rewrite (list_fmap_ext (listed_id ∘ enriched rt (db s)) Movie.movieId
                  (scan_items (db s))).
  - intros x. rewrite sort_reverse_perm. unfold scan_items.
    rewrite <- list_fmap_compose, list_elem_of_fmap.
    intros ([k a] & -> & Hka). apply elem_of_map_to_list in Hka.
    exists a. unfold listed_id. simpl.
    rewrite get_username_directory_name.
    repeat (split; [done|]). split.
    + rewrite <- list_fmap_compose. apply list_fmap_ext.
      intros _ i _. simpl. apply get_username_directory_name.
    + rewrite length_fmap. unfold query_items. rewrite length_fmap.
      by rewrite length_map_to_list.
Qed.

Lemma get_movies_enrichment_witness :
  ∃ l,
    (get_movies.lambda_handler (path_event "" "")
       (quiet_runtime 100 (py "id-1")) three_movies_store).1
    = response.success_response 200 (response.MoviesBody l)
    ∧ length l = 3%nat
    ∧ (∀ x, x ∈ l →
            length (EnrichedMovie.interestedUsers x)
            = size (interests_of (listed_id x)
                      (interests_table (db three_movies_store)))).
Proof.
  destruct (get_movies_enrichment (path_event "" "")
              (quiet_runtime 100 (py "id-1")) three_movies_store
              (λ _ _, eq_refl)) as (l & Hl & Hp & Hx).
  exists l. split; [exact Hl|]. split.
  - apply Permutation_length in Hp. rewrite length_fmap in Hp.
    rewrite Hp. vm_compute. reflexivity.
  - intros x Hin. destruct (Hx x Hin) as (a & _ & _ & _ & _ & _ & _ & _ & Hn).
    exact Hn.
Defined.

(** X23. When the directory fails or knows nobody for every identifier,
    [get_movies] (the store being available) still answers 200 and lists
    for every movie the raw identifiers of its interested users. *)
Theorem get_movies_directory_fallback (event : Event) (rt : Runtime)
    (s : State) :
  store_available rt →
  (∀ u, list_users rt u = None ∨ list_users rt u = Some []) →
  ∃ l,
    (get_movies.lambda_handler event rt s).1
    = response.success_response 200 (response.MoviesBody l)
    ∧ ∀ x, x ∈ l →
           EnrichedMovie.interestedUsers x
           = Interest.userId <$> query_items (listed_id x) (db s).
Proof.
  intros Hrt Hdir. rewrite get_movies_run. simpl. rewrite Hrt.
  destruct (for_each_enrich_available rt (scan_items (db s))
              {| db := db s; calls := calls s ++ [Scan] |} Hrt)
    as (s' & -> & _).
  simpl. eexists. split; [done|].
  intros x. rewrite sort_reverse_perm, list_elem_of_fmap.
  intros (mv & -> & _). simpl. apply list_fmap_ext. intros _ i _.
  unfold get_movies.get_username_from_user_id.
  by destruct (Hdir (Interest.userId i)) as [-> | ->].
Qed.

Lemma get_movies_directory_fallback_witness :
  ∃ l,
    (get_movies.lambda_handler (path_event "" "") (directory_raises 100)
       three_movies_store).1
    = response.success_response 200 (response.MoviesBody l)
    ∧ ∀ x, x ∈ l →
           EnrichedMovie.interestedUsers x
           = Interest.userId
             <$> query_items (listed_id x) (db three_movies_store).
Proof.
  exact (get_movies_directory_fallback (path_event "" "")
           (directory_raises 100) three_movies_store
           (λ _ _, eq_refl) (λ _, or_introl eq_refl)).
Defined.

(** X24. The sort of [get_movies] is stable: the movies that share a
    [createdAt] stay in the order in which the scan returned them. *)
Theorem sort_reverse_stable (l : list EnrichedMovie.t) (t : Z) :
  filter (λ x, get_movies.sort_key x = t) (get_movies.sort_reverse l)
  = filter (λ x, get_movies.sort_key x = t) l.
Proof.
  assert (Hins : ∀ x l',
    filter (λ x, get_movies.sort_key x = t) (get_movies.insert_desc x l')
    = filter (λ x, get_movies.sort_key x = t) (x :: l')).
  { intros x l'. induction l' as [|y l' IH]; simpl; [done|].
    destruct (get_movies.sort_key x <? get_movies.sort_key y) eqn:E; [|done].
    apply Z.ltb_lt in E.
    rewrite (filter_cons _ y), IH, !filter_cons.
    repeat case_decide; try done; lia. }
  induction l as [|x l IH]; simpl; [done|].
  rewrite Hins, !filter_cons, IH. done.
Qed.

(** ** Naming the audio file *)

Section naming_facts.
Import text_to_audio.

Lemma starts_with_one (a c : codepoint) (r : pystr) :
  starts_with [a] (c :: r) = bool_decide (a = c).
Proof.
  simpl. unfold pystr_eqb.
  destruct (decide (a = c)) as [->|Hne].
  - by rewrite !bool_decide_true.
  - rewrite !bool_decide_false; [done|done|]. by intros [= ?].
Qed.

(** Replacing brings in no character that is neither in the text nor in
    the replacement. *)
Lemma replace_from_elem (old new : pystr) (k : nat) (s : pystr)
    (x : codepoint) :
  x ∈ replace_from old new k s → x ∈ new ∨ x ∈ s.
Proof.
  revert k. induction s as [|c r IH]; intros k; simpl.
  - intros H. by apply elem_of_nil in H.
  - destruct k as [|k].
    + destruct (starts_with old (c :: r)).
      * intros [H|H]%elem_of_app; [by left|].
        destruct (IH _ H); [by left|right; by apply list_elem_of_further].
      * intros [->|H]%elem_of_cons; [right; apply list_elem_of_here|].
        destruct (IH _ H); [by left|right; by apply list_elem_of_further].
    + intros H. destruct (IH _ H); [by left|right; by apply list_elem_of_further].
Qed.

(** Replacing one character leaves none of it, unless the replacement
    holds it. *)
Lemma replace_char_gone (a : codepoint) (new s : pystr) :
  a ∉ new → a ∉ replace [a] new s.
Proof.
  intros Hnew. unfold replace. induction s as [|c r IH]; simpl.
  - apply not_elem_of_nil.
  - change (if pystr_eqb [a] [c] then true else false)
      with (starts_with [a] (c :: r)).
    rewrite starts_with_one. case_bool_decide as E.
    + intros [H|H]%elem_of_app; [done|]. by apply IH.
    + intros [->|H]%elem_of_cons; [done|]. by apply IH.
Qed.

Lemma until_slash_elem (s : pystr) (x : codepoint) :
  x ∈ until_slash s → x ∈ s ∧ x ≠ 47%N.
Proof.
  induction s as [|c r IH]; simpl.
  - intros H. by apply elem_of_nil in H.
  - unfold pystr_eqb. case_bool_decide as E.
    + intros H. by apply elem_of_nil in H.
    + intros [->|H]%elem_of_cons.
      * split; [apply list_elem_of_here|]. intros ->. by apply E.
      * destruct (IH H). split; [by apply list_elem_of_further|done].
Qed.

Lemma until_slash_stops (s r : pystr) :
  47%N ∉ s → until_slash (s ++ 47%N :: r) = s.
Proof.
  induction s as [|c s IH]; simpl.
  - done.
  - intros [Hc Hs]%not_elem_of_cons. unfold pystr_eqb.
    rewrite bool_decide_false by (intros [= ->]; done).
    by rewrite IH.
Qed.

Lemma until_slash_all (s : pystr) : 47%N ∉ s → until_slash s = s.
Proof.
  induction s as [|c s IH]; simpl; [done|].
  intros [Hc Hs]%not_elem_of_cons. unfold pystr_eqb.
  rewrite bool_decide_false by (intros [= ->]; done).
  by rewrite IH.
Qed.

Lemma elem_of_rev (s : pystr) (x : codepoint) : x ∈ rev s ↔ x ∈ s.
Proof. rewrite !list_elem_of_In. symmetry. apply in_rev. Qed.

Lemma last_segment_elem (s : pystr) (x : codepoint) :
  x ∈ last_segment s → x ≠ 47%N.
Proof.
  unfold last_segment. rewrite elem_of_rev. apply until_slash_elem.
Qed.

(** X25. Whatever the key of the text object, the name of the audio
    file holds no ['/'], no space and no parenthesis, provided
    lower-casing brings in none of these characters, as lower-casing
    does. *)
Theorem file_out_safe (lower : pystr -> pystr) (file_in : pystr)
    (x : codepoint) :
  (∀ s c, c ∈ lower s → c ∈ [47; 32; 40; 41]%N → c ∈ s) →
  x ∈ file_out lower file_in →
  x ∉ [47; 32; 40; 41]%N.
Proof.
  intros Hlower. unfold file_out. set (s0 := last_segment file_in).
  set (s1 := lower s0).
  set (s2 := replace (py " ") (py "_") s1).
  set (s3 := replace (py "(") [] s2).
  set (s4 := replace (py ")") [] s3).
  assert (Hlit : ∀ (c : codepoint) (l : pystr),
            forallb (λ y, negb (c =? y)%N) l = true → c ∉ l).
  { intros c l Hl Hc. rewrite forallb_forall in Hl.
    apply list_elem_of_In, Hl in Hc. by rewrite N.eqb_refl in Hc. }
  assert (H1 : 47%N ∉ s1).
  { intros H. apply Hlower in H; [|apply list_elem_of_here].
    by apply last_segment_elem in H. }
  assert (H2 : (47%N ∉ s2) ∧ (32%N ∉ s2)).
  { split.
    - intros [H|H]%replace_from_elem; [|done]. by apply Hlit in H.
    - apply (replace_char_gone 32%N). by apply Hlit. }
  assert (H3 : (47%N ∉ s3) ∧ (32%N ∉ s3) ∧ (40%N ∉ s3)).
  { destruct H2 as [Ha Hb]. repeat split.
    - intros [H|H]%replace_from_elem; [by apply elem_of_nil in H|done].
    - intros [H|H]%replace_from_elem; [by apply elem_of_nil in H|done].
    - apply (replace_char_gone 40%N). apply not_elem_of_nil. }
  assert (H4 : (47%N ∉ s4) ∧ (32%N ∉ s4) ∧ (40%N ∉ s4) ∧ (41%N ∉ s4)).
  { destruct H3 as (Ha & Hb & Hc). repeat split.
    - intros [H|H]%replace_from_elem; [by apply elem_of_nil in H|done].
    - intros [H|H]%replace_from_elem; [by apply elem_of_nil in H|done].
    - intros [H|H]%replace_from_elem; [by apply elem_of_nil in H|done].
    - apply (replace_char_gone 41%N). apply not_elem_of_nil. }
  destruct H4 as (Ha & Hb & Hc & Hd).
  intros [H|H]%elem_of_app.
  - apply replace_from_elem in H as [H|H]; [by apply elem_of_nil in H|].
    intros Hx. repeat (apply elem_of_cons in Hx as [->|Hx]; [done|]).
    by apply elem_of_nil in Hx.
  - intros Hx.
    repeat (apply elem_of_cons in Hx as [->|Hx]; [by apply Hlit in H|]).
    by apply elem_of_nil in Hx.
Qed.

Lemma ascii_lower_brings_nothing (s : pystr) (c : codepoint) :
  c ∈ ascii_lower s → c ∈ [47; 32; 40; 41]%N → c ∈ s.
Proof.
  unfold ascii_lower. intros (y & -> & Hy)%list_elem_of_fmap Hc.
  destruct ((65 <=? y) && (y <=? 90))%N eqn:E; [|done].
  apply andb_prop in E as [E1 E2].
  apply N.leb_le in E1. apply N.leb_le in E2.
  repeat (apply elem_of_cons in Hc as [Hc|Hc]; [lia|]).
  by apply elem_of_nil in Hc.
Qed.

Lemma file_out_safe_witness :
  file_out ascii_lower (py "textes/My File (1).TXT") = py "my_file_1.mp3"
  ∧ 32%N ∉ file_out ascii_lower (py "textes/My File (1).TXT").
Proof.
  split; [vm_compute; reflexivity|].
  intros H.
  refine (file_out_safe ascii_lower (py "textes/My File (1).TXT") 32%N
            ascii_lower_brings_nothing H _).
  apply list_elem_of_further, list_elem_of_here.
Defined.

(** X26. Only the last segment of the key counts for the name of the
    audio file: the folders of the key are dropped, so that two text
    objects of the same name in different folders get the same audio
    file. *)
Theorem file_out_ignores_folders (lower : pystr -> pystr)
    (folders name : pystr) :
  47%N ∉ name →
  file_out lower (folders ++ py "/" ++ name) = file_out lower name.
Proof.
  intros Hname. unfold file_out.
  assert (H : ∀ s, 47%N ∉ s → 47%N ∉ rev s).
  { intros s Hs. by rewrite elem_of_rev. }
  assert (H1 : last_segment (folders ++ py "/" ++ name) = name).
  { unfold last_segment. rewrite !rev_app_distr. simpl.
    rewrite <- app_assoc. simpl.
    rewrite until_slash_stops by (by apply H). apply rev_involutive. }
  assert (H2 : last_segment name = name).
  { unfold last_segment. rewrite until_slash_all by (by apply H).
    apply rev_involutive. }
  by rewrite H1, H2.
Qed.

Lemma file_out_ignores_folders_witness :
  file_out ascii_lower (py "a/b/Note.txt") = file_out ascii_lower (py "Note.txt").
Proof.
  apply (file_out_ignores_folders ascii_lower (py "a/b") (py "Note.txt")).
  vm_compute. intros H.
  repeat (apply elem_of_cons in H as [H|H]; [discriminate|]).
  by apply elem_of_nil in H.
Defined.
End naming_facts.
